(** * Hogan RO API: authorization helpers and purchase-order routes

    A shallow embedding of [lib/auth.ts], [lib/db.ts] and
    [routes/purchase-orders.ts], with the properties of the authorization
    evaluator and of the purchase-order lifecycle stated over it.

    Conventions of the embedding:
    - a JavaScript value of type [any] is a [jsval]; numbers are the integers
      (amounts in cents), so [NaN] only shows up as the [None] of [ToNumber];
    - a JavaScript object used as a bag of claims is a [gmap string jsval],
      and reading a property that is absent gives [JUndefined];
    - a thrown exception is the [Throw] of [result];
    - an [async] function is a state-and-exception computation [Async] over
      the [World]: the database connection and the count of clock/UUID draws;
    - what lives outside the repository (jsonwebtoken, the system clock,
      [crypto.randomUUID], zod's UUID format, ECMAScript's string-to-number
      conversion) is a field of [Env]. *)

From Stdlib Require Import QArith Ascii.
From stdpp Require Import gmap strings list.

Local Open Scope Z_scope.

(** ** JavaScript values *)

Inductive jsval : Type :=
  | JUndefined
  | JNull
  | JBool (b : bool)
  | JNumber (n : Z)
  | JString (s : string).

Global Instance jsval_eq_dec : EqDecision jsval.
Proof. solve_decision. Defined.

(** [ToBoolean]: the falsy values are undefined, null, false, 0 and the empty string. *)
Definition truthy (v : jsval) : bool :=
  match v with
  | JUndefined | JNull => false
  | JBool b => b
  | JNumber n => negb (n =? 0)
  | JString s => negb (bool_decide (s = ""))
  end.

(** [a || b] *)
Definition js_or (a b : jsval) : jsval := if truthy a then a else b.

(** [a === b] (no NaN in the model, so it is equality of values). *)
Definition js_strict_eq (a b : jsval) : bool := bool_decide (a = b).

(** [obj.key] on an object without prototype properties of that name. *)
Definition js_get (obj : gmap string jsval) (key : string) : jsval :=
  default JUndefined (obj !! key).

(** [Array.prototype.includes]: membership up to SameValueZero. *)
Definition includes {A} `{EqDecision A} (xs : list A) (x : A) : bool :=
  bool_decide (x ∈ xs).

(** [Array.prototype.join] on an array of strings. *)
Fixpoint join (sep : string) (xs : list string) : string :=
  match xs with
  | [] => ""
  | [x] => x
  | x :: rest => x +:+ sep +:+ join sep rest
  end.

(** [String.prototype.startsWith] *)
Fixpoint startsWith (s pre : string) {struct pre} : bool :=
  match pre, s with
  | EmptyString, _ => true
  | String c pre', String d s' => bool_decide (c = d) && startsWith s' pre'
  | String _ _, EmptyString => false
  end.

(** [String.prototype.substring] with a start index only. *)
Fixpoint substring (s : string) (start : nat) {struct start} : string :=
  match start, s with
  | O, _ => s
  | S n, String _ s' => substring s' n
  | S _, EmptyString => ""
  end.

(** ** Exceptions *)

Inductive exn : Type :=
  | Error (message : string)
  | ZodError (issues : list string)
  | TypeError (message : string)
  | DatabaseError.

Inductive result (A : Type) : Type :=
  | Ok (a : A)
  | Throw (e : exn).
Global Arguments Ok {A} a.
Global Arguments Throw {A} e.

(** ** External collaborators *)

Record Env : Type := {
  (** [jwt.sign(payload, JWT_SECRET, ...)] *)
  jwt_sign : gmap string jsval → string;
  (** [jwt.verify(token, JWT_SECRET)]; [None] when it throws. *)
  jwt_verify : string → option (gmap string jsval);
  (** the [n]-th reading of [new Date().toISOString()] *)
  clock : nat → string;
  (** the [n]-th draw of [crypto.randomUUID()] *)
  randomUUID : nat → string;
  (** zod's [.uuid()] format check *)
  zod_uuid : string → bool;
  (** ECMAScript [StringToNumber]; [None] is NaN *)
  StringToNumber : string → option Z;
}.

(** [ToNumber] *)
Definition ToNumber (env : Env) (v : jsval) : option Z :=
  match v with
  | JUndefined => None
  | JNull => Some 0
  | JBool b => Some (if b then 1 else 0)
  | JNumber n => Some n
  | JString s => StringToNumber env s
  end.

(** [a <= b] for a number [a]: false as soon as [b] converts to NaN. *)
Definition number_le (env : Env) (a : Z) (b : jsval) : bool :=
  match ToNumber env b with
  | Some n => bool_decide (a ≤ n)
  | None => false
  end.

(** What jsonwebtoken is taken to do with an object payload that carries
    no [iat] or [exp] of its own: the token it signs verifies, and the
    decoded object reads like the payload on every key, with only [iat]
    and [exp] added. *)
Definition jwt_round_trip (env : Env) : Prop :=
  ∀ payload : gmap string jsval,
    payload !! "iat" = None → payload !! "exp" = None →
    ∃ decoded,
      jwt_verify env (jwt_sign env payload) = Some decoded
      ∧ ∀ key, key ≠ "iat" → key ≠ "exp" → js_get decoded key = js_get payload key.

(** ** lib/auth.ts *)

(** [AuthenticatedUser] as it exists at run time: [extractUserFromRequest]
    fills it from a decoded token of type [any], so every field can hold any
    value, [JUndefined] included. *)
Record AuthenticatedUser : Type := {
  id : jsval;
  sub : jsval;
  email : jsval;
  name : jsval;
  role : jsval;
  division_id : jsval;
  spending_limit_cents : jsval;
}.

Global Instance AuthenticatedUser_eq_dec : EqDecision AuthenticatedUser.
Proof. solve_decision. Defined.

(** The part of a Fastify request the handlers read. *)
Record FastifyRequest (Qry Body : Type) : Type := {
  headers_authorization : option string;
  params_id : string;
  query : Qry;
  body : Body;
}.
Global Arguments headers_authorization {Qry Body} _.
Global Arguments params_id {Qry Body} _.
Global Arguments query {Qry Body} _.
Global Arguments body {Qry Body} _.

Definition token_payload (user : AuthenticatedUser) : gmap string jsval :=
  <["sub" := sub user]>
    (<["id" := id user]>
      (<["email" := email user]>
        (<["role" := role user]>
          (<["division_id" := division_id user]> ∅)))).

Definition generateToken (env : Env) (user : AuthenticatedUser) : string :=
  jwt_sign env (token_payload user).

(** [null] is [None]. *)
Definition verifyToken (env : Env) (token : string) : option (gmap string jsval) :=
  match jwt_verify env token with
  | Some decoded => Some decoded
  | None => None
  end.

Definition extractUserFromRequest {Qry Body} (env : Env) (request : FastifyRequest Qry Body)
  : option AuthenticatedUser :=
  match headers_authorization request with
  | None => None
  | Some authHeader =>
    if bool_decide (authHeader = "") || negb (startsWith authHeader "Bearer ") then None
    else
      let token := substring authHeader 7 in
      match verifyToken env token with
      | None => None
      | Some decoded =>
        Some {| id := js_get decoded "id";
                sub := js_get decoded "sub";
                email := js_get decoded "email";
                name := js_get decoded "name";
                role := js_get decoded "role";
                division_id := js_get decoded "division_id";
                spending_limit_cents :=
                  js_or (js_get decoded "spending_limit_cents") (JNumber 0) |}
      end
  end.

Definition requireAuth {Qry Body} (env : Env) (request : FastifyRequest Qry Body)
  : result AuthenticatedUser :=
  match extractUserFromRequest env request with
  | None => Throw (Error "Unauthorized: Valid JWT token required")
  | Some user => Ok user
  end.

Definition requireRole (user : AuthenticatedUser) (allowedRoles : list string)
  : result unit :=
  if negb (includes (JString <$> allowedRoles) (role user))
  then Throw (Error ("Forbidden: Requires one of roles: " +:+ join ", " allowedRoles))
  else Ok tt.

Definition canCreatePurchaseOrder (env : Env) (user : AuthenticatedUser) (totalCents : Z)
  : bool :=
  if js_strict_eq (role user) (JString "admin") then true
  else number_le env totalCents (spending_limit_cents user).

(** ** The relational store

    Rows carry the columns the modelled statements read or write; a
    timestamp is the ISO string the code produces, [None] is SQL [NULL];
    an id is the canonical text of the UUID, compared as a string. *)

Record UserRow : Type := {
  user_id : string;
  user_deleted_at : option string;
}.

Record RoleRow : Type := {
  role_id : string;
  role_name : string;
  role_is_system_role : bool;
  role_deleted_at : option string;
}.

Record PermissionRow : Type := {
  permission_id : string;
  permission_name : string;
  permission_deleted_at : option string;
}.

(** [user_roles] *)
Record UserRoleRow : Type := {
  ur_user_id : string;
  ur_role_id : string;
  ur_deleted_at : option string;
}.

(** [role_permissions] *)
Record RolePermissionRow : Type := {
  rp_role_id : string;
  rp_permission_id : string;
  rp_deleted_at : option string;
}.

Record SupplierRow : Type := {
  supplier_id : string;
  supplier_deleted_at : option string;
}.

Record PurchaseOrderRow : Type := {
  po_id : string;
  po_number : string;
  po_supplier_id : string;
  po_status : string;
  po_order_date : string;
  po_expected_delivery_date : option string;
  po_total_amount : Q;
  po_currency : string;
  po_notes : option string;
  po_created_at : string;
  po_updated_at : string;
  po_created_by : jsval;
  po_updated_by : jsval;
  po_deleted_at : option string;
}.

(** [purchase_order_items] *)
Record PurchaseOrderItemRow : Type := {
  poi_id : string;
  poi_purchase_order_id : string;
  poi_description : string;
  poi_quantity : Q;
  poi_unit_price : Q;
  poi_total_price : Q;
  poi_notes : option string;
  poi_created_at : string;
  poi_updated_at : string;
  poi_created_by : jsval;
  poi_updated_by : jsval;
}.

Record Store : Type := {
  users : list UserRow;
  roles : list RoleRow;
  permissions : list PermissionRow;
  user_roles : list UserRoleRow;
  role_permissions : list RolePermissionRow;
  suppliers : list SupplierRow;
  purchase_orders : list PurchaseOrderRow;
  purchase_order_items : list PurchaseOrderItemRow;
}.

(** The connection behind the [sql] tag: every statement throws while it is
    [Down]. *)
Inductive Conn : Type :=
  | Down
  | Up (st : Store).

Record World : Type := {
  conn : Conn;
  draws : nat;
}.

(** ** Asynchronous computations *)

Definition Async (A : Type) : Type := World → result A * World.

Module Async.

Definition ret {A} (a : A) : Async A := λ w, (Ok a, w).

Definition bind {A B} (m : Async A) (k : A → Async B) : Async B :=
  λ w, match m w with
       | (Ok a, w') => k a w'
       | (Throw e, w') => (Throw e, w')
       end.

(** A synchronous call that may throw. *)
Definition lift {A} (r : result A) : Async A := λ w, (r, w).

(** [try { body } catch (error) { handler }]: what [body] wrote before it
    threw stays written. *)
Definition try_catch {A} (body : Async A) (handler : exn → Async A) : Async A :=
  λ w, match body w with
       | (Ok a, w') => (Ok a, w')
       | (Throw e, w') => handler e w'
       end.

(** [await sql`SELECT ...`] *)
Definition select {A} (q : Store → A) : Async A :=
  λ w, match conn w with
       | Down => (Throw DatabaseError, w)
       | Up st => (Ok (q st), w)
       end.

(** [await sql`INSERT ...`] and [await sql`UPDATE ...`] *)
Definition execute (f : Store → Store) : Async unit :=
  λ w, match conn w with
       | Down => (Throw DatabaseError, w)
       | Up st => (Ok tt, {| conn := Up (f st); draws := draws w |})
       end.

(** One draw from the clock or from the UUID generator. *)
Definition draw : Async nat :=
  λ w, (Ok (draws w), {| conn := conn w; draws := S (draws w) |}).

Fixpoint for_each {A B} (f : A → Async B) (xs : list A) : Async (list B) :=
  match xs with
  | [] => ret []
  | x :: rest =>
    bind (f x) (λ y, bind (for_each f rest) (λ ys, ret (y :: ys)))
  end.

End Async.

Notation "'let*' x := m 'in' k" := (Async.bind m (λ x, k))
  (at level 10, x name, m at level 100, k at level 200).
Notation "'do*' m 'in' k" := (Async.bind m (λ _, k))
  (at level 10, m at level 100, k at level 200).

(** The value an [async] call settles to, and the world it leaves. *)
Definition settled {A} (m : Async A) (w : World) : result A := fst (m w).
Definition world_after {A} (m : Async A) (w : World) : World := snd (m w).

(** ** Permission resolution (lib/auth.ts) *)

(** The rows of
    [users u JOIN user_roles ur ON u.id = ur.user_id
             JOIN role_permissions rp ON ur.role_id = rp.role_id
             JOIN permissions p ON rp.permission_id = p.id]
    that pass the [WHERE] clause, projected on [p.name]. *)
Definition permission_rows (userId : string) (st : Store) : list string :=
  u ← users st;
  ur ← user_roles st;
  rp ← role_permissions st;
  p ← permissions st;
  if bool_decide (user_id u = ur_user_id ur)
     && bool_decide (ur_role_id ur = rp_role_id rp)
     && bool_decide (rp_permission_id rp = permission_id p)
     && bool_decide (user_id u = userId)
     && bool_decide (user_deleted_at u = None)
     && bool_decide (ur_deleted_at ur = None)
     && bool_decide (rp_deleted_at rp = None)
     && bool_decide (permission_deleted_at p = None)
  then [permission_name p] else [].

(** [SELECT DISTINCT p.name ...] *)
Definition select_permissions (userId : string) (st : Store) : list string :=
  remove_dups (permission_rows userId st).

Definition getUserPermissions (userId : string) : Async (list string) :=
  Async.try_catch
    (let* permissions := Async.select (select_permissions userId) in
     Async.ret permissions)
    (λ _, Async.ret []).

Definition hasPermission (userId permission : string) : Async bool :=
  let* permissions := getUserPermissions userId in
  Async.ret (includes permissions permission).

Definition requirePermission (userId permission : string) : Async unit :=
  let* hasRequired := hasPermission userId permission in
  if negb hasRequired
  then Async.lift (Throw (Error ("Forbidden: Missing required permission: " +:+ permission)))
  else Async.ret tt.

(** ** lib/db.ts *)

(** [/^[0-9a-f]{8}-[0-9a-f]{4}-[0-9a-f]{4}-[0-9a-f]{4}-[0-9a-f]{12}$/i] *)
Definition is_hex_digit (c : ascii) : bool :=
  let n := nat_of_ascii c in
  ((48 <=? n) && (n <=? 57) || (97 <=? n) && (n <=? 102) || (65 <=? n) && (n <=? 70))%nat.

Fixpoint hex_digits (n : nat) (s : string) : option string :=
  match n with
  | O => Some s
  | S n' =>
    match s with
    | String c s' => if is_hex_digit c then hex_digits n' s' else None
    | EmptyString => None
    end
  end.

Definition hyphen (s : string) : option string :=
  match s with
  | String c s' => if bool_decide (c = "-"%char) then Some s' else None
  | EmptyString => None
  end.

Definition uuid_rest (uuid : string) : option string :=
  s ← hex_digits 8 uuid; s ← hyphen s;
  s ← hex_digits 4 s; s ← hyphen s;
  s ← hex_digits 4 s; s ← hyphen s;
  s ← hex_digits 4 s; s ← hyphen s;
  hex_digits 12 s.

Definition isValidUUID (uuid : string) : bool :=
  match uuid_rest uuid with
  | Some EmptyString => true
  | _ => false
  end.

(** The fields [withCreateAudit] adds to the spread [data]. *)
Record CreateAudit : Type := {
  audit_id : string;
  created_at : string;
  created_updated_at : string;
  created_by : jsval;
  created_updated_by : jsval;
}.

Definition withCreateAudit {T} (env : Env) (data : T) (userId : jsval)
  : Async (T * CreateAudit) :=
  let* n := Async.draw in
  let now := clock env n in
  let id := randomUUID env n in
  let user_id := js_or userId (JString "system") in
  Async.ret (data, {| audit_id := id; created_at := now; created_updated_at := now;
                      created_by := user_id; created_updated_by := user_id |}).

(** The fields [withUpdateAudit] adds to the spread [data]. *)
Record UpdateAudit : Type := {
  updated_at : string;
  updated_by : jsval;
}.

Definition withUpdateAudit {T} (env : Env) (data : T) (userId : jsval)
  : Async (T * UpdateAudit) :=
  let* n := Async.draw in
  let now := clock env n in
  let user_id := js_or userId (JString "system") in
  Async.ret (data, {| updated_at := now; updated_by := user_id |}).

(** ** routes/purchase-orders.ts

    Fastify checks a body against the route's JSON schema before the
    handler runs; the handlers below are the functions registered on the
    routes, which parse the body again with zod. *)

(** The JSON bodies, after JSON typing: a field is absent ([None]) or holds
    a value of the JSON type the schema names. *)
Record ItemBody : Type := {
  item_description : option string;
  item_quantity : option Q;
  item_unit_price : option Q;
  item_total_price : option Q;
  item_notes : option string;
}.

Record CreateBody : Type := {
  body_po_number : option string;
  body_supplier_id : option string;
  body_status : option string;
  body_order_date : option string;
  body_expected_delivery_date : option string;
  body_total_amount : option Q;
  body_currency : option string;
  body_notes : option string;
  body_items : option (list ItemBody);
}.

(** What [createPurchaseOrderSchema.parse] returns. *)
Record ItemData : Type := {
  description : string;
  quantity : Q;
  unit_price : Q;
  total_price : Q;
  notes : option string;
}.

Record CreateData : Type := {
  data_po_number : string;
  data_supplier_id : string;
  data_status : string;
  data_order_date : string;
  data_expected_delivery_date : option string;
  data_total_amount : Q;
  data_currency : string;
  data_notes : option string;
  data_items : list ItemData;
}.

Definition status_enum : list string :=
  ["draft"; "pending"; "approved"; "ordered"; "received"; "cancelled"].

(** One zod check: the path of the field when it fails. *)
Definition issue_unless (ok : bool) (path : string) : list string :=
  if ok then [] else [path].

Definition required {A} (check : A → bool) (field : option A) : bool :=
  match field with
  | Some a => check a
  | None => false
  end.

Definition item_issues (item : ItemBody) : list string :=
  issue_unless (required (λ s, (1 <=? String.length s)%nat) (item_description item))
               "items.description"
  ++ issue_unless (required (Qle_bool 1) (item_quantity item)) "items.quantity"
  ++ issue_unless (required (Qle_bool 0) (item_unit_price item)) "items.unit_price"
  ++ issue_unless (required (Qle_bool 0) (item_total_price item)) "items.total_price".

Definition schema_issues (env : Env) (b : CreateBody) : list string :=
  issue_unless (required (λ s, (1 <=? String.length s)%nat && (String.length s <=? 100)%nat)
                         (body_po_number b)) "po_number"
  ++ issue_unless (required (zod_uuid env) (body_supplier_id b)) "supplier_id"
  ++ issue_unless (from_option (includes status_enum) true (body_status b)) "status"
  ++ issue_unless (required (λ _, true) (body_order_date b)) "order_date"
  ++ issue_unless (required (Qle_bool 0) (body_total_amount b)) "total_amount"
  ++ issue_unless (from_option (λ s, (String.length s =? 3)%nat) true (body_currency b))
                  "currency"
  ++ match body_items b with
     | Some items => items ≫= item_issues
     | None => ["items"]
     end.

Definition parse_item (item : ItemBody) : ItemData :=
  {| description := default "" (item_description item);
     quantity := default 0%Q (item_quantity item);
     unit_price := default 0%Q (item_unit_price item);
     total_price := default 0%Q (item_total_price item);
     notes := item_notes item |}.

(** [createPurchaseOrderSchema.parse(request.body)]; the [default]s of the
    required fields are never reached, those fields are present once there
    is no issue. *)
Definition createPurchaseOrderSchema_parse (env : Env) (b : CreateBody)
  : result CreateData :=
  match schema_issues env b with
  | [] =>
    Ok {| data_po_number := default "" (body_po_number b);
          data_supplier_id := default "" (body_supplier_id b);
          data_status := default "draft" (body_status b);
          data_order_date := default "" (body_order_date b);
          data_expected_delivery_date := body_expected_delivery_date b;
          data_total_amount := default 0%Q (body_total_amount b);
          data_currency := default "USD" (body_currency b);
          data_notes := body_notes b;
          data_items := parse_item <$> default [] (body_items b) |}
  | issues => Throw (ZodError issues)
  end.

Inductive Payload : Type :=
  (** [{ error }] *)
  | ErrorPayload (error : string)
  (** [{ error: 'Validation error', details }] *)
  | ValidationErrorPayload (details : list string)
  (** [{ message }] *)
  | MessagePayload (message : string)
  (** [{ purchase_order: { ...newPO, items } }] *)
  | PurchaseOrderPayload (newPO : PurchaseOrderRow) (items : list PurchaseOrderItemRow)
  (** [{ purchase_orders, pagination }] *)
  | ListingPayload (purchase_orders : list PurchaseOrderRow) (total_count : Z).

Record Reply : Type := {
  statusCode : Z;
  payload : Payload;
}.

(** [reply.status(code).send(payload)] *)
Definition send (code : Z) (p : Payload) : Reply :=
  {| statusCode := code; payload := p |}.

(** *** SQL statements of the routes *)

Definition with_purchase_orders (f : list PurchaseOrderRow → list PurchaseOrderRow)
  (st : Store) : Store :=
  {| users := users st; roles := roles st; permissions := permissions st;
     user_roles := user_roles st; role_permissions := role_permissions st;
     suppliers := suppliers st;
     purchase_orders := f (purchase_orders st);
     purchase_order_items := purchase_order_items st |}.

Definition with_purchase_order_items
  (f : list PurchaseOrderItemRow → list PurchaseOrderItemRow) (st : Store) : Store :=
  {| users := users st; roles := roles st; permissions := permissions st;
     user_roles := user_roles st; role_permissions := role_permissions st;
     suppliers := suppliers st;
     purchase_orders := purchase_orders st;
     purchase_order_items := f (purchase_order_items st) |}.

(** [SELECT id FROM purchase_orders WHERE po_number = $1 AND deleted_at IS NULL],
    destructured as [[existingPO]]: the first row, if any. *)
Definition select_purchase_order_by_number (number : string) (st : Store)
  : option PurchaseOrderRow :=
  head (filter (λ po, po_number po = number ∧ po_deleted_at po = None) (purchase_orders st)).

(** [SELECT id FROM suppliers WHERE id = $1 AND deleted_at IS NULL] *)
Definition select_supplier (sid : string) (st : Store) : option SupplierRow :=
  head (filter (λ s, supplier_id s = sid ∧ supplier_deleted_at s = None) (suppliers st)).

(** [INSERT INTO purchase_orders (...) VALUES (...) RETURNING ...] *)
Definition insert_purchase_order (row : PurchaseOrderRow) (st : Store) : Store :=
  with_purchase_orders (λ rows, rows ++ [row]) st.

(** [INSERT INTO purchase_order_items (...) VALUES (...) RETURNING ...] *)
Definition insert_purchase_order_item (row : PurchaseOrderItemRow) (st : Store) : Store :=
  with_purchase_order_items (λ rows, rows ++ [row]) st.

(** [SELECT id, status as current_status FROM purchase_orders
     WHERE id = $1 AND deleted_at IS NULL] *)
Definition select_current_status (poId : string) (st : Store) : option string :=
  po_status <$>
    head (filter (λ po, po_id po = poId ∧ po_deleted_at po = None) (purchase_orders st)).

Definition set_status (status : string) (audit : UpdateAudit) (po : PurchaseOrderRow)
  : PurchaseOrderRow :=
  {| po_id := po_id po; po_number := po_number po; po_supplier_id := po_supplier_id po;
     po_status := status;
     po_order_date := po_order_date po;
     po_expected_delivery_date := po_expected_delivery_date po;
     po_total_amount := po_total_amount po; po_currency := po_currency po;
     po_notes := po_notes po; po_created_at := po_created_at po;
     po_updated_at := updated_at audit;
     po_created_by := po_created_by po;
     po_updated_by := updated_by audit;
     po_deleted_at := po_deleted_at po |}.

(** One row under [SET status = $1, updated_at = $2, updated_by = $3
    WHERE id = $4]. *)
Definition overwrite (poId status : string) (audit : UpdateAudit) (po : PurchaseOrderRow)
  : PurchaseOrderRow :=
  if bool_decide (po_id po = poId) then set_status status audit po else po.

(** [UPDATE purchase_orders SET status = $1, updated_at = $2, updated_by = $3
     WHERE id = $4] *)
Definition update_status (poId : string) (updateData : string * UpdateAudit) (st : Store)
  : Store :=
  with_purchase_orders (fmap (overwrite poId (fst updateData) (snd updateData))) st.

(** *** POST / *)

Definition purchase_order_row (poData : CreateData * CreateAudit) : PurchaseOrderRow :=
  let data := fst poData in
  let audit := snd poData in
  {| po_id := audit_id audit;
     po_number := data_po_number data;
     po_supplier_id := data_supplier_id data;
     po_status := data_status data;
     po_order_date := data_order_date data;
     po_expected_delivery_date := data_expected_delivery_date data;
     po_total_amount := data_total_amount data;
     po_currency := data_currency data;
     po_notes := data_notes data;
     po_created_at := created_at audit;
     po_updated_at := created_updated_at audit;
     po_created_by := created_by audit;
     po_updated_by := created_updated_by audit;
     po_deleted_at := None |}.

Definition purchase_order_item_row (purchase_order_id : string)
  (itemData : ItemData * CreateAudit) : PurchaseOrderItemRow :=
  let item := fst itemData in
  let audit := snd itemData in
  {| poi_id := audit_id audit;
     poi_purchase_order_id := purchase_order_id;
     poi_description := description item;
     poi_quantity := quantity item;
     poi_unit_price := unit_price item;
     poi_total_price := total_price item;
     poi_notes := notes item;
     poi_created_at := created_at audit;
     poi_updated_at := created_updated_at audit;
     poi_created_by := created_by audit;
     poi_updated_by := created_updated_by audit |}.

Definition create_item (env : Env) (user : AuthenticatedUser) (newPO : PurchaseOrderRow)
  (item : ItemData) : Async PurchaseOrderItemRow :=
  let* itemData := withCreateAudit env item (id user) in
  let newItem := purchase_order_item_row (po_id newPO) itemData in
  do* Async.execute (insert_purchase_order_item newItem) in
  Async.ret newItem.

Definition create_purchase_order {Qry} (env : Env) (request : FastifyRequest Qry CreateBody)
  : Async Reply :=
  Async.try_catch
    (let* user := Async.lift (requireAuth env request) in
     do* Async.lift (requireRole user ["admin"; "manager"]) in
     let* data := Async.lift (createPurchaseOrderSchema_parse env (body request)) in
     let* existingPO := Async.select (select_purchase_order_by_number (data_po_number data)) in
     if bool_decide (is_Some existingPO)
     then Async.ret (send 400 (ErrorPayload "Purchase order number already exists"))
     else
       let* supplier := Async.select (select_supplier (data_supplier_id data)) in
       if negb (bool_decide (is_Some supplier))
       then Async.ret (send 400 (ErrorPayload "Supplier not found"))
       else
         let* poData := withCreateAudit env data (id user) in
         let newPO := purchase_order_row poData in
         do* Async.execute (insert_purchase_order newPO) in
         let* items := Async.for_each (create_item env user newPO) (data_items data) in
         Async.ret (send 201 (PurchaseOrderPayload newPO items)))
    (λ error,
       match error with
       | ZodError issues => Async.ret (send 400 (ValidationErrorPayload issues))
       | _ => Async.ret (send 500 (ErrorPayload "Failed to create purchase order"))
       end).

(** *** PATCH /:id/status *)

(** The body [{ status }]. *)
Record StatusBody : Type := {
  status : string;
}.

Definition validTransitions : gmap string (list string) :=
  <["draft" := ["pending"; "cancelled"]]>
    (<["pending" := ["approved"; "cancelled"]]>
      (<["approved" := ["ordered"; "cancelled"]]>
        (<["ordered" := ["received"; "cancelled"]]>
          (<["received" := []]>
            (<["cancelled" := []]> ∅))))).

(** [validTransitions[current_status].includes(status)]. For a
    [current_status] that is not a key of the table the lookup gives
    [undefined] (or, for a name on [Object.prototype], a value without an
    [includes] method), and the call throws a [TypeError]. *)
Definition transition_allowed (current_status status : string) : result bool :=
  match validTransitions !! current_status with
  | Some allowed => Ok (includes allowed status)
  | None => Throw (TypeError "validTransitions[current_status].includes")
  end.

(** An update that has passed validation and waits for its [UPDATE]. *)
Record PendingUpdate : Type := {
  pending_id : string;
  pending_status : string;
  pending_user : AuthenticatedUser;
}.

(** The handler up to and including the transition check: either it has
    already replied, or the update goes ahead. *)
Definition validate_status_update {Qry} (env : Env) (request : FastifyRequest Qry StatusBody)
  : Async (Reply + PendingUpdate) :=
  let* user := Async.lift (requireAuth env request) in
  do* Async.lift (requireRole user ["admin"; "manager"]) in
  let id := params_id request in
  let status := status (body request) in
  if negb (isValidUUID id)
  then Async.ret (inl (send 400 (ErrorPayload "Invalid purchase order ID format")))
  else
    let* existingPO := Async.select (select_current_status id) in
    match existingPO with
    | None => Async.ret (inl (send 404 (ErrorPayload "Purchase order not found")))
    | Some current_status =>
      let* allowed := Async.lift (transition_allowed current_status status) in
      if negb allowed
      then Async.ret (inl (send 400 (ErrorPayload
             ("Invalid status transition from " +:+ current_status +:+ " to " +:+ status))))
      else Async.ret (inr {| pending_id := id; pending_status := status;
                             pending_user := user |})
    end.

(** The handler from [// Update status] on. *)
Definition apply_status_update (env : Env) (u : PendingUpdate) : Async Reply :=
  let* updateData := withUpdateAudit env (pending_status u) (id (pending_user u)) in
  do* Async.execute (update_status (pending_id u) updateData) in
  Async.ret (send 200 (MessagePayload
    ("Purchase order status updated to " +:+ pending_status u))).

Definition status_update_failed : exn → Async Reply :=
  λ _, Async.ret (send 500 (ErrorPayload "Failed to update purchase order status")).

Definition update_purchase_order_status {Qry} (env : Env)
  (request : FastifyRequest Qry StatusBody) : Async Reply :=
  Async.try_catch
    (let* checked := validate_status_update env request in
     match checked with
     | inl reply => Async.ret reply
     | inr u => apply_status_update env u
     end)
    status_update_failed.

(** *** GET / *)

Section Listing.

(** The query string of the listing and the two [SELECT]s it drives
    (filters, pagination arithmetic and joins are PostgreSQL's work). *)
Variable ListQuery : Type.
Variable select_listing : ListQuery → Store → list PurchaseOrderRow * Z.

Definition list_purchase_orders {Body} (env : Env)
  (request : FastifyRequest ListQuery Body) : Async Reply :=
  Async.try_catch
    (let* user := Async.lift (requireAuth env request) in
     do* Async.lift (requireRole user ["admin"; "manager"; "user"]) in
     let* listing := Async.select (select_listing (query request)) in
     Async.ret (send 200 (ListingPayload (fst listing) (snd listing))))
    (λ _, Async.ret (send 500 (ErrorPayload "Failed to fetch purchase orders"))).

End Listing.

(** *** Two status updates in flight

    Each [await] is a point where another request may run. The handler of
    [PATCH /:id/status] awaits twice: the [SELECT] of the current status and
    the [UPDATE]. [status_update_reads] is the handler up to the first,
    [status_update_writes] the rest, each under the handler's [catch]. *)

Definition status_update_reads {Qry} (env : Env) (request : FastifyRequest Qry StatusBody)
  : Async (Reply + PendingUpdate) :=
  Async.try_catch (validate_status_update env request)
    (λ error, let* reply := status_update_failed error in Async.ret (inl reply)).

Definition status_update_writes (env : Env) (checked : Reply + PendingUpdate)
  : Async Reply :=
  match checked with
  | inl reply => Async.ret reply
  | inr u => Async.try_catch (apply_status_update env u) status_update_failed
  end.

(** Both requests read before either writes. *)
Definition racing_status_updates {Qry} (env : Env)
  (first second : FastifyRequest Qry StatusBody) : Async (Reply * Reply) :=
  let* checked1 := status_update_reads env first in
  let* checked2 := status_update_reads env second in
  let* reply1 := status_update_writes env checked1 in
  let* reply2 := status_update_writes env checked2 in
  Async.ret (reply1, reply2).

(** The stored status of the order, deleted or not. *)
Definition stored_status (poId : string) (w : World) : option string :=
  match conn w with
  | Down => None
  | Up st => po_status <$> head (filter (λ po, po_id po = poId) (purchase_orders st))
  end.

(** *** Two creations in flight

    The handler of [POST /] awaits its two [SELECT]s and then its
    [INSERT]s. [create_reads] is the handler up to the supplier check,
    [create_writes] the rest, each under the handler's [catch]. *)

(** A creation that has passed every check and waits for its [INSERT]s. *)
Record PendingCreate : Type := {
  pending_creator : AuthenticatedUser;
  pending_data : CreateData;
}.

Definition validate_create {Qry} (env : Env) (request : FastifyRequest Qry CreateBody)
  : Async (Reply + PendingCreate) :=
  let* user := Async.lift (requireAuth env request) in
  do* Async.lift (requireRole user ["admin"; "manager"]) in
  let* data := Async.lift (createPurchaseOrderSchema_parse env (body request)) in
  let* existingPO := Async.select (select_purchase_order_by_number (data_po_number data)) in
  if bool_decide (is_Some existingPO)
  then Async.ret (inl (send 400 (ErrorPayload "Purchase order number already exists")))
  else
    let* supplier := Async.select (select_supplier (data_supplier_id data)) in
    if negb (bool_decide (is_Some supplier))
    then Async.ret (inl (send 400 (ErrorPayload "Supplier not found")))
    else Async.ret (inr {| pending_creator := user; pending_data := data |}).

Definition apply_create (env : Env) (p : PendingCreate) : Async Reply :=
  let user := pending_creator p in
  let data := pending_data p in
  let* poData := withCreateAudit env data (id user) in
  let newPO := purchase_order_row poData in
  do* Async.execute (insert_purchase_order newPO) in
  let* items := Async.for_each (create_item env user newPO) (data_items data) in
  Async.ret (send 201 (PurchaseOrderPayload newPO items)).

Definition create_failed (error : exn) : Async Reply :=
  match error with
  | ZodError issues => Async.ret (send 400 (ValidationErrorPayload issues))
  | _ => Async.ret (send 500 (ErrorPayload "Failed to create purchase order"))
  end.

Definition create_reads {Qry} (env : Env) (request : FastifyRequest Qry CreateBody)
  : Async (Reply + PendingCreate) :=
  Async.try_catch (validate_create env request)
    (λ error, let* reply := create_failed error in Async.ret (inl reply)).

Definition create_writes (env : Env) (checked : Reply + PendingCreate) : Async Reply :=
  match checked with
  | inl reply => Async.ret reply
  | inr p => Async.try_catch (apply_create env p) create_failed
  end.

(** Both requests read before either writes. *)
Definition racing_creates {Qry} (env : Env)
  (first second : FastifyRequest Qry CreateBody) : Async (Reply * Reply) :=
  let* checked1 := create_reads env first in
  let* checked2 := create_reads env second in
  let* reply1 := create_writes env checked1 in
  let* reply2 := create_writes env checked2 in
  Async.ret (reply1, reply2).

(** ** More of lib/auth.ts *)

Definition canManageUsers (user : AuthenticatedUser) : bool :=
  includes (JString <$> ["admin"; "manager"]) (role user).

Definition canManageRoles (user : AuthenticatedUser) : bool :=
  js_strict_eq (role user) (JString "admin").

Definition canAccessDivision (user : AuthenticatedUser) (divisionId : string) : bool :=
  if js_strict_eq (role user) (JString "admin") then true
  else js_strict_eq (division_id user) (JString divisionId).

(** ** routes/auth.ts: GET /verify *)

Inductive VerifyPayload : Type :=
  (** [{ error }] *)
  | VerifyError (error : string)
  (** [{ valid: false, error }] *)
  | VerifyInvalid (error : string)
  (** [{ valid: true, user: { id, email, name, role } }] *)
  | VerifyValid (user_id user_email user_name user_role : jsval).

Record VerifyReply : Type := {
  verify_statusCode : Z;
  verify_payload : VerifyPayload;
}.

Definition verify_token {Qry Body} (env : Env) (request : FastifyRequest Qry Body)
  : Async VerifyReply :=
  Async.try_catch
    (match headers_authorization request with
     | None =>
       Async.ret {| verify_statusCode := 401;
                    verify_payload := VerifyError "Missing or invalid authorization header" |}
     | Some authHeader =>
       if bool_decide (authHeader = "") || negb (startsWith authHeader "Bearer ")
       then Async.ret {| verify_statusCode := 401;
                         verify_payload :=
                           VerifyError "Missing or invalid authorization header" |}
       else
         let* user := Async.lift (requireAuth env request) in
         Async.ret {| verify_statusCode := 200;
                      verify_payload :=
                        VerifyValid (id user) (email user) (name user) (role user) |}
     end)
    (λ _, Async.ret {| verify_statusCode := 401;
                       verify_payload := VerifyInvalid "Invalid token" |}).

(** ** Vocabulary of the further properties *)

(** Every character is one of [0-9a-fA-F]. *)
Fixpoint all_hex (s : string) : bool :=
  match s with
  | EmptyString => true
  | String c s' => is_hex_digit c && all_hex s'
  end.

(** A history of statuses in which every step passed the transition check. *)
Fixpoint legal_chain (statuses : list string) : bool :=
  match statuses with
  | a :: (b :: _) as rest =>
    match transition_allowed a b with
    | Ok true => legal_chain rest
    | _ => false
    end
  | _ => true
  end.

(** The numbers of the purchase orders that are not soft-deleted. *)
Definition live_numbers (st : Store) : list string :=
  po_number <$> filter (λ po, po_deleted_at po = None) (purchase_orders st).

(** Every row of [st] is a row of [st'] in the tables permission resolution
    reads. *)
Definition rbac_rows_kept (st st' : Store) : Prop :=
  users st ⊆ users st' ∧ user_roles st ⊆ user_roles st'
  ∧ role_permissions st ⊆ role_permissions st' ∧ permissions st ⊆ permissions st'.

(** The columns of a purchase order that a status update leaves alone. *)
Definition fixed_columns (po : PurchaseOrderRow)
  : string * string * string * string * option string * Q * string * option string
    * string * jsval * option string :=
  (po_id po, po_number po, po_supplier_id po, po_order_date po,
   po_expected_delivery_date po, po_total_amount po, po_currency po, po_notes po,
   po_created_at po, po_created_by po, po_deleted_at po).

(** ** Vocabulary of the further properties, continued *)

(** The position of a status along the lifecycle; 0 for [draft] and for
    anything that is not a status. *)
Definition lifecycle_rank (s : string) : nat :=
  if bool_decide (s = "pending") then 1
  else if bool_decide (s = "approved") then 2
  else if bool_decide (s = "ordered") then 3
  else if bool_decide (s = "received") then 4
  else if bool_decide (s = "cancelled") then 4
  else 0.

(** The audit fields [withCreateAudit] builds at draw [n]. *)
Definition create_audit (env : Env) (userId : jsval) (n : nat) : CreateAudit :=
  {| audit_id := randomUUID env n;
     created_at := clock env n;
     created_updated_at := clock env n;
     created_by := js_or userId (JString "system");
     created_updated_by := js_or userId (JString "system") |}.

(** The rows the item loop of [POST /] inserts from draw [n] on. *)
Definition item_rows (env : Env) (user : AuthenticatedUser) (newPO : PurchaseOrderRow)
  (n : nat) (items : list ItemData) : list PurchaseOrderItemRow :=
  imap (λ i item, purchase_order_item_row (po_id newPO)
                    (item, create_audit env (id user) (n + i))) items.

(** The order [create_purchase_order] inserts for parsed [data] at draw [n]. *)
Definition new_order (env : Env) (user : AuthenticatedUser) (data : CreateData) (n : nat)
  : PurchaseOrderRow :=
  purchase_order_row (data, create_audit env (id user) n).

(** ** The specification's reference definitions *)

(** The canonical transition table, as a list of edges. *)
Definition canonical_edges : list (string * string) :=
  [("draft", "pending"); ("draft", "cancelled");
   ("pending", "approved"); ("pending", "cancelled");
   ("approved", "ordered"); ("approved", "cancelled");
   ("ordered", "received"); ("ordered", "cancelled")].

(** The permission set in the specification's words: principal, then role
    through a non-deleted user-role assignment, then permission through a
    non-deleted role-permission assignment, the role and permission rows
    themselves non-deleted. *)
Definition spec_permission_rows (userId : string) (st : Store) : list string :=
  ur ← user_roles st;
  r ← roles st;
  rp ← role_permissions st;
  p ← permissions st;
  if bool_decide (ur_user_id ur = userId)
     && bool_decide (ur_deleted_at ur = None)
     && bool_decide (role_id r = ur_role_id ur)
     && bool_decide (role_deleted_at r = None)
     && bool_decide (rp_role_id rp = role_id r)
     && bool_decide (rp_deleted_at rp = None)
     && bool_decide (permission_id p = rp_permission_id rp)
     && bool_decide (permission_deleted_at p = None)
  then [permission_name p] else [].

Definition spec_permissions (userId : string) (st : Store) : list string :=
  remove_dups (spec_permission_rows userId st).

(** A permission name is resolved for [userId] through these four rows. *)
Definition resolves (st : Store) (userId : string) (u : UserRow) (ur : UserRoleRow)
  (rp : RolePermissionRow) (p : PermissionRow) : Prop :=
  u ∈ users st ∧ ur ∈ user_roles st ∧ rp ∈ role_permissions st ∧ p ∈ permissions st
  ∧ user_id u = userId ∧ user_deleted_at u = None
  ∧ ur_user_id ur = userId ∧ ur_deleted_at ur = None
  ∧ rp_role_id rp = ur_role_id ur ∧ rp_deleted_at rp = None
  ∧ permission_id p = rp_permission_id rp ∧ permission_deleted_at p = None.


(** What the specification's wording asks of the same four rows plus the
    role row. *)
Definition spec_resolves (st : Store) (userId : string) (ur : UserRoleRow) (r : RoleRow)
  (rp : RolePermissionRow) (p : PermissionRow) : Prop :=
  ur ∈ user_roles st ∧ r ∈ roles st ∧ rp ∈ role_permissions st ∧ p ∈ permissions st
  ∧ ur_user_id ur = userId ∧ ur_deleted_at ur = None
  ∧ role_id r = ur_role_id ur ∧ role_deleted_at r = None
  ∧ rp_role_id rp = role_id r ∧ rp_deleted_at rp = None
  ∧ permission_id p = rp_permission_id rp ∧ permission_deleted_at p = None.


(** ** Sample data *)

Module Sample.

Definition admin : AuthenticatedUser :=
  {| id := JString "11111111-1111-4111-8111-111111111111";
     sub := JString "11111111-1111-4111-8111-111111111111";
     email := JString "admin@example.com";
     name := JString "Ada Admin";
     role := JString "admin";
     division_id := JUndefined;
     spending_limit_cents := JNumber 1000000 |}.

Definition manager : AuthenticatedUser :=
  {| id := JString "22222222-2222-4222-8222-222222222222";
     sub := JString "22222222-2222-4222-8222-222222222222";
     email := JString "manager@example.com";
     name := JString "Max Manager";
     role := JString "manager";
     division_id := JString "dddddddd-dddd-4ddd-8ddd-dddddddddddd";
     spending_limit_cents := JNumber 250000 |}.

Definition basic : AuthenticatedUser :=
  {| id := JString "33333333-3333-4333-8333-333333333333";
     sub := JString "33333333-3333-4333-8333-333333333333";
     email := JString "basic@example.com";
     name := JString "Bea Basic";
     role := JString "basic";
     division_id := JString "dddddddd-dddd-4ddd-8ddd-dddddddddddd";
     spending_limit_cents := JNumber 50000 |}.

(** What [jwt.verify] gives back for a token signed over [payload]: the
    claims, with the issue and expiry times added. *)
Definition decoded_claims (payload : gmap string jsval) : gmap string jsval :=
  <["iat" := JNumber 1700000000]> (<["exp" := JNumber 1700086400]> payload).

(** A stand-in for jsonwebtoken that knows three tokens. *)
Definition issued : gmap string (gmap string jsval) :=
  <["token-admin" := decoded_claims (token_payload admin)]>
    (<["token-manager" := decoded_claims (token_payload manager)]>
      (<["token-basic" := decoded_claims (token_payload basic)]> ∅)).

Definition sign (payload : gmap string jsval) : string :=
  match js_get payload "role" with
  | JString r => "token-" +:+ r
  | _ => "token"
  end.

Definition uuid_of_draw (n : nat) : string :=
  match n with
  | 0%nat => "aaaaaaaa-0000-4000-8000-000000000000"
  | 1%nat => "aaaaaaaa-0000-4000-8000-000000000001"
  | 2%nat => "aaaaaaaa-0000-4000-8000-000000000002"
  | _ => "aaaaaaaa-0000-4000-8000-000000000003"
  end.

Definition env : Env :=
  {| jwt_sign := sign;
     jwt_verify := λ token, issued !! token;
     clock := λ _, "2025-01-15T09:30:00.000Z";
     randomUUID := uuid_of_draw;
     zod_uuid := isValidUUID;
     StringToNumber := λ _, None |}.

Definition request {Qry Body} (authorization : option string) (poId : string)
  (q : Qry) (b : Body) : FastifyRequest Qry Body :=
  {| headers_authorization := authorization; params_id := poId;
     query := q; body := b |}.

Definition supplier : SupplierRow :=
  {| supplier_id := "55555555-5555-4555-8555-555555555555";
     supplier_deleted_at := None |}.

Definition order (status : string) : PurchaseOrderRow :=
  {| po_id := "66666666-6666-4666-8666-666666666666";
     po_number := "PO-2025-001";
     po_supplier_id := "55555555-5555-4555-8555-555555555555";
     po_status := status;
     po_order_date := "2025-01-10T00:00:00.000Z";
     po_expected_delivery_date := None;
     po_total_amount := 1250%Q;
     po_currency := "USD";
     po_notes := None;
     po_created_at := "2025-01-10T08:00:00.000Z";
     po_updated_at := "2025-01-10T08:00:00.000Z";
     po_created_by := id admin;
     po_updated_by := id admin;
     po_deleted_at := None |}.

Definition store (pos : list PurchaseOrderRow) : Store :=
  {| users := []; roles := []; permissions := []; user_roles := [];
     role_permissions := []; suppliers := [supplier];
     purchase_orders := pos; purchase_order_items := [] |}.

Definition world (pos : list PurchaseOrderRow) : World :=
  {| conn := Up (store pos); draws := 0 |}.

Definition item : ItemBody :=
  {| item_description := Some "Steel brackets";
     item_quantity := Some 10%Q;
     item_unit_price := Some 125%Q;
     item_total_price := Some 1250%Q;
     item_notes := None |}.

(** A body the JSON schema of [POST /] lets through to the handler: the
    supplier id is a UUID, the order date an ISO date-time, and there is one
    item. *)
Definition create_body (number : string) (status : option string) : CreateBody :=
  {| body_po_number := Some number;
     body_supplier_id := Some "55555555-5555-4555-8555-555555555555";
     body_status := status;
     body_order_date := Some "2025-01-15T00:00:00.000Z";
     body_expected_delivery_date := None;
     body_total_amount := Some 1250%Q;
     body_currency := None;
     body_notes := None;
     body_items := Some [item] |}.

(** A user with one role that grants one permission; the flags choose
    which of the rows carry a deletion timestamp. *)
Definition rbac_store (user_deleted role_deleted : bool) : Store :=
  let stamp (deleted : bool) :=
    if deleted then Some "2025-01-01T00:00:00.000Z" else None in
  {| users := [{| user_id := "33333333-3333-4333-8333-333333333333";
                  user_deleted_at := stamp user_deleted |}];
     roles := [{| role_id := "77777777-7777-4777-8777-777777777777";
                  role_name := "Approver"; role_is_system_role := false;
                  role_deleted_at := stamp role_deleted |}];
     permissions := [{| permission_id := "88888888-8888-4888-8888-888888888888";
                        permission_name := "pos:approve";
                        permission_deleted_at := None |}];
     user_roles := [{| ur_user_id := "33333333-3333-4333-8333-333333333333";
                       ur_role_id := "77777777-7777-4777-8777-777777777777";
                       ur_deleted_at := None |}];
     role_permissions := [{| rp_role_id := "77777777-7777-4777-8777-777777777777";
                             rp_permission_id := "88888888-8888-4888-8888-888888888888";
                             rp_deleted_at := None |}];
     suppliers := []; purchase_orders := []; purchase_order_items := [] |}.

End Sample.

(** ** A token stand-in that round-trips every payload

    The token is the payload itself, written as the binary digits of its
    code; verifying reads the digits back and adds [iat] and [exp]. *)

Module Plain.

Definition jsval_to_sum (v : jsval) : unit + unit + bool + Z + string :=
  match v with
  | JUndefined => inl (inl (inl (inl tt)))
  | JNull => inl (inl (inl (inr tt)))
  | JBool b => inl (inl (inr b))
  | JNumber n => inl (inr n)
  | JString s => inr s
  end.

Definition sum_to_jsval (x : unit + unit + bool + Z + string) : jsval :=
  match x with
  | inl (inl (inl (inl _))) => JUndefined
  | inl (inl (inl (inr _))) => JNull
  | inl (inl (inr b)) => JBool b
  | inl (inr n) => JNumber n
  | inr s => JString s
  end.

Global Instance jsval_countable : Countable jsval.
Proof.
  apply (inj_countable' jsval_to_sum sum_to_jsval). by intros [].
Defined.

Fixpoint bits_of_positive (p : positive) : string :=
  match p with
  | xH => ""
  | xO q => String "0" (bits_of_positive q)
  | xI q => String "1" (bits_of_positive q)
  end.

Fixpoint positive_of_bits (s : string) : option positive :=
  match s with
  | EmptyString => Some xH
  | String c s' =>
    q ← positive_of_bits s';
    if bool_decide (c = "0"%char) then Some (xO q)
    else if bool_decide (c = "1"%char) then Some (xI q)
    else None
  end.

Definition sign (payload : gmap string jsval) : string :=
  bits_of_positive (encode payload).

Definition verify (token : string) : option (gmap string jsval) :=
  p ← positive_of_bits token;
  payload ← decode p;
  Some (Sample.decoded_claims payload).

Definition env : Env :=
  {| jwt_sign := sign;
     jwt_verify := verify;
     clock := clock Sample.env;
     randomUUID := randomUUID Sample.env;
     zod_uuid := isValidUUID;
     StringToNumber := λ _, None |}.

End Plain.

(** ** Further sample data *)

Module Scenario.

Definition patch (authorization : option string) (poId newStatus : string)
  : FastifyRequest unit StatusBody :=
  Sample.request authorization poId tt {| status := newStatus |}.

Definition other_supplier_body : CreateBody :=
  {| body_po_number := Some "PO-2025-003";
     body_supplier_id := Some "55555555-5555-4555-8555-555555555556";
     body_status := None;
     body_order_date := Some "2025-01-15T00:00:00.000Z";
     body_expected_delivery_date := None;
     body_total_amount := Some 10%Q;
     body_currency := Some "EUR";
     body_notes := None;
     body_items := Some [Sample.item] |}.

Definition post (authorization : option string) (b : CreateBody)
  : FastifyRequest unit CreateBody :=
  Sample.request authorization "" tt b.

Definition deleted_order : PurchaseOrderRow :=
  {| po_id := "66666666-6666-4666-8666-666666666666";
     po_number := "PO-2024-900";
     po_supplier_id := "55555555-5555-4555-8555-555555555555";
     po_status := "draft";
     po_order_date := "2024-12-01T00:00:00.000Z";
     po_expected_delivery_date := None;
     po_total_amount := 80%Q;
     po_currency := "USD";
     po_notes := None;
     po_created_at := "2024-12-01T08:00:00.000Z";
     po_updated_at := "2024-12-20T08:00:00.000Z";
     po_created_by := id Sample.admin;
     po_updated_by := id Sample.admin;
     po_deleted_at := Some "2024-12-20T08:00:00.000Z" |}.

End Scenario.

(** Unfolding of the status handler. *)
Ltac run_status_update :=
  unfold update_purchase_order_status, validate_status_update, apply_status_update,
    status_update_failed, withUpdateAudit;
  unfold Async.try_catch, Async.bind, Async.lift, Async.select, Async.execute,
    Async.draw, Async.ret.

(** Unfolding of the plumbing of [Async], for running a handler. *)
Ltac run_async :=
  unfold settled, world_after, Async.try_catch, Async.bind, Async.lift, Async.ret,
    Async.select, Async.execute; simpl.


(** * Properties *)

(** ** Purchase-order lifecycle *)

Lemma validTransitions_lookup (current : string) :
  validTransitions !! current =
    if bool_decide (current = "draft") then Some ["pending"; "cancelled"]
    else if bool_decide (current = "pending") then Some ["approved"; "cancelled"]
    else if bool_decide (current = "approved") then Some ["ordered"; "cancelled"]
    else if bool_decide (current = "ordered") then Some ["received"; "cancelled"]
    else if bool_decide (current = "received") then Some []
    else if bool_decide (current = "cancelled") then Some []
    else None.
Proof.
  unfold validTransitions. rewrite !lookup_insert, lookup_empty.
  do 6 (match goal with
        | |- context [decide (?k = current)] =>
          destruct (decide (k = current)) as [<-|?]; [reflexivity|]
        end).
  rewrite !bool_decide_eq_false_2 by congruence. reflexivity.
Qed.

(** The six statuses are exactly the keys of the table. *)
Lemma transition_allowed_defined (current requested : string) :
  current ∈ status_enum → ∃ b, transition_allowed current requested = Ok b.
Proof.
  unfold status_enum, transition_allowed. rewrite !elem_of_cons, elem_of_nil.
  intros H. rewrite validTransitions_lookup.
  repeat (destruct H as [->|H]; [simpl; eauto|]). destruct H.
Qed.

Lemma transition_allowed_unknown (current requested : string) :
  current ∉ status_enum → ∃ e, transition_allowed current requested = Throw e.
Proof.
  unfold status_enum, transition_allowed. rewrite !elem_of_cons, elem_of_nil.
  intros H. rewrite validTransitions_lookup.
  rewrite !bool_decide_eq_false_2 by (intros ->; apply H; tauto). eauto.
Qed.

Lemma transition_allowed_edge (current requested : string) :
  transition_allowed current requested = Ok true ↔ (current, requested) ∈ canonical_edges.
Proof.
  split.
  - unfold transition_allowed, canonical_edges, includes.
    rewrite validTransitions_lookup, !elem_of_cons, elem_of_nil.
    repeat case_bool_decide; subst; simpl; try (intros ?; discriminate).
    all: intros _; match goal with Hin : _ ∈ _ |- _ => revert Hin end;
      rewrite ?elem_of_cons, ?elem_of_nil; intros Hreq;
      repeat (destruct Hreq as [->|Hreq]; [tauto|]); destruct Hreq.
  - unfold canonical_edges. rewrite !elem_of_cons, elem_of_nil. intros H.
    repeat (destruct H as [Heq|H];
            [injection Heq as Hc Hr; rewrite Hc, Hr; reflexivity|]).
    destruct H.
Qed.

Lemma canonical_edges_NoDup : NoDup canonical_edges.
Proof. apply (bool_decide_unpack _). vm_compute. exact I. Qed.

(** C1 (as amended). The transition check of [PATCH /:id/status] lets a pair
    (current status, requested status) through if and only if it is one of
    the 8 edges of the canonical table; from each of the six statuses it
    rejects every other pair, among them every self-transition, every
    transition out of [received] and [cancelled], and every requested
    status outside the enumeration. *)
Theorem transition_check_canonical_table :
  (∀ current requested,
      transition_allowed current requested = Ok true ↔ (current, requested) ∈ canonical_edges)
  ∧ NoDup canonical_edges
  ∧ length canonical_edges = 8%nat
  ∧ (∀ s X, s ∈ status_enum → (s, X) ∉ canonical_edges →
            transition_allowed s X = Ok false)
  ∧ (∀ s, s ∈ status_enum → transition_allowed s s = Ok false)
  ∧ (∀ X, transition_allowed "received" X = Ok false
          ∧ transition_allowed "cancelled" X = Ok false)
  ∧ (∀ s X, s ∈ status_enum → X ∉ status_enum → transition_allowed s X = Ok false).
Proof.
  split; [exact transition_allowed_edge|].
  split; [exact canonical_edges_NoDup|].
  split; [reflexivity|].
  split; [|split; [|split]].
  - intros s X Hs Hedge.
    destruct (transition_allowed_defined s X Hs) as [[] Hb]; [|exact Hb].
    apply transition_allowed_edge in Hb. done.
  - intros s. unfold status_enum. rewrite !elem_of_cons, elem_of_nil. intros H.
    repeat (destruct H as [->|H]; [reflexivity|]). destruct H.
  - intros X. unfold transition_allowed. rewrite !validTransitions_lookup. simpl.
    unfold includes. rewrite bool_decide_eq_false_2 by apply not_elem_of_nil. done.
  - intros s X Hs HX. unfold transition_allowed, includes.
    rewrite validTransitions_lookup. revert Hs HX. unfold status_enum.
    rewrite !elem_of_cons, elem_of_nil. intros Hs HX.
    repeat (destruct Hs as [->|Hs];
            [simpl;
             first [ reflexivity
                   | rewrite bool_decide_eq_false_2; [done|];
                     rewrite ?elem_of_cons, ?elem_of_nil; tauto ]|]).
    destruct Hs.
Qed.

Lemma transition_check_canonical_table_witness :
  transition_allowed "draft" "pending" = Ok true
  ∧ transition_allowed "draft" "approved" = Ok false
  ∧ transition_allowed "draft" "draft" = Ok false
  ∧ transition_allowed "received" "cancelled" = Ok false
  ∧ transition_allowed "pending" "archived" = Ok false.
Proof.
  destruct transition_check_canonical_table
    as (Hedge & _ & _ & Hother & Hself & Hterminal & Hunknown).
  split; [apply Hedge; apply (bool_decide_unpack _); vm_compute; exact I|].
  split; [apply Hother; apply (bool_decide_unpack _); vm_compute; exact I|].
  split; [apply Hself; apply (bool_decide_unpack _); vm_compute; exact I|].
  split; [apply Hterminal|].
  apply Hunknown; apply (bool_decide_unpack _); vm_compute; exact I.
Defined.

(** C1 (as stated): the accepted pairs are not 10 edges; no duplicate-free
    list of 10 pairs is the set of pairs the check lets through. *)
Lemma transition_check_not_ten_edges :
  ¬ ∃ edges : list (string * string),
      NoDup edges ∧ length edges = 10%nat
      ∧ ∀ current requested,
          transition_allowed current requested = Ok true ↔ (current, requested) ∈ edges.
Proof.
  intros (edges & Hnd & Hlen & Hiff).
  assert (Hsub : edges ⊆+ canonical_edges).
  { apply NoDup_submseteq; [done|]. intros [c r] Hin.
    apply transition_allowed_edge, Hiff, Hin. }
  apply submseteq_length in Hsub. rewrite Hlen in Hsub. simpl in Hsub. lia.
Qed.

(** What the route answers to an authorized caller whose pair is off the
    table: 400 with both statuses in the message, and nothing written. *)
Lemma status_update_rejects_off_table {Qry} (env : Env)
  (request : FastifyRequest Qry StatusBody) (st : Store) (n : nat)
  (user : AuthenticatedUser) (current : string) :
  requireAuth env request = Ok user →
  requireRole user ["admin"; "manager"] = Ok tt →
  isValidUUID (params_id request) = true →
  select_current_status (params_id request) st = Some current →
  current ∈ status_enum →
  (current, status (body request)) ∉ canonical_edges →
  update_purchase_order_status env request {| conn := Up st; draws := n |}
  = (Ok (send 400 (ErrorPayload ("Invalid status transition from " +:+ current
                                 +:+ " to " +:+ status (body request)))),
     {| conn := Up st; draws := n |}).
Proof.
  intros Hauth Hrole Huuid Hcurrent Henum Hedge.
  destruct (transition_allowed_defined current (status (body request)) Henum)
    as [allowed Hallowed].
  assert (allowed = false) as ->.
  { destruct allowed; [|reflexivity]. apply transition_allowed_edge in Hallowed. done. }
  unfold update_purchase_order_status, validate_status_update.
  unfold Async.try_catch, Async.bind, Async.lift, Async.select, Async.ret.
  rewrite Hauth, Hrole, Huuid. simpl. rewrite Hcurrent, Hallowed. reflexivity.
Qed.

(** ** Authorization evaluator *)

Lemma includes_true {A} `{EqDecision A} (xs : list A) (x : A) :
  includes xs x = true ↔ x ∈ xs.
Proof. unfold includes. apply bool_decide_eq_true. Qed.

Lemma includes_strings (xs : list string) (s : string) :
  includes (JString <$> xs) (JString s) = includes xs s.
Proof.
  unfold includes. apply bool_decide_ext. rewrite list_elem_of_fmap. split.
  - intros (y & [= ->] & Hy). exact Hy.
  - intros Hs. exists s. done.
Qed.

(** C2. The role gate lets a principal with role [R] through a requirement
    [S] if and only if [R] is a member of [S], with no ordering of roles: a
    [manager] is refused when [S] is [admin] alone. *)
Theorem requireRole_exact_membership (user : AuthenticatedUser) (R : string)
  (S : list string) :
  role user = JString R →
  (requireRole user S = Ok tt ↔ R ∈ S)
  ∧ (R ∉ S →
     requireRole user S = Throw (Error ("Forbidden: Requires one of roles: " +:+ join ", " S)))
  ∧ (R = "manager" →
     requireRole user ["admin"] = Throw (Error "Forbidden: Requires one of roles: admin")).
Proof.
  intros HR. unfold requireRole. rewrite HR, !includes_strings.
  split; [|split].
  - destruct (includes S R) eqn:E; simpl.
    + apply includes_true in E. done.
    + split; [discriminate|]. intros HS%includes_true. congruence.
  - intros HS. destruct (includes S R) eqn:E; [|done].
    apply includes_true in E. done.
  - intros ->. reflexivity.
Qed.

Lemma requireRole_exact_membership_witness :
  role Sample.manager = JString "manager"
  ∧ requireRole Sample.manager ["admin"]
    = Throw (Error "Forbidden: Requires one of roles: admin")
  ∧ requireRole Sample.manager ["admin"; "manager"] = Ok tt.
Proof.
  split; [reflexivity|]. split.
  - apply (requireRole_exact_membership Sample.manager "manager" ["admin"]);
      reflexivity.
  - apply (requireRole_exact_membership Sample.manager "manager" ["admin"; "manager"]);
      [reflexivity|]. apply (bool_decide_unpack _). vm_compute. exact I.
Defined.

(** C3. [canCreatePurchaseOrder] is true for every amount when the role is
    [admin], whatever the configured limit; for any other user with a
    numeric limit it is true exactly when [totalCents <= spending_limit_cents],
    the boundary [totalCents = spending_limit_cents] included. *)
Theorem canCreatePurchaseOrder_gate (env : Env) (user : AuthenticatedUser)
  (totalCents : Z) :
  (role user = JString "admin" → canCreatePurchaseOrder env user totalCents = true)
  ∧ (∀ limit, role user ≠ JString "admin" → spending_limit_cents user = JNumber limit →
       (canCreatePurchaseOrder env user totalCents = true ↔ totalCents ≤ limit)
       ∧ canCreatePurchaseOrder env user limit = true).
Proof.
  unfold canCreatePurchaseOrder, js_strict_eq, number_le. split.
  - intros ->. reflexivity.
  - intros limit Hrole ->. rewrite bool_decide_eq_false_2 by done. simpl.
    rewrite bool_decide_eq_true. split; [done|]. apply bool_decide_eq_true. lia.
Qed.

Lemma canCreatePurchaseOrder_gate_witness :
  canCreatePurchaseOrder Sample.env Sample.admin 99999999 = true
  ∧ canCreatePurchaseOrder Sample.env Sample.basic 50000 = true
  ∧ ¬ canCreatePurchaseOrder Sample.env Sample.basic 50001 = true.
Proof.
  destruct (canCreatePurchaseOrder_gate Sample.env Sample.admin 99999999) as [Hadmin _].
  destruct (canCreatePurchaseOrder_gate Sample.env Sample.basic 50001) as [_ Hbasic].
  assert (Hrole : role Sample.basic ≠ JString "admin") by discriminate.
  destruct (Hbasic 50000 Hrole eq_refl) as [Hiff Hboundary].
  split; [exact (Hadmin eq_refl)|]. split; [exact Hboundary|].
  intros H. apply Hiff in H. lia.
Defined.

(** ** Token round trip *)

Lemma bearer_header (token : string) :
  bool_decide ("Bearer " +:+ token = "") = false
  ∧ startsWith ("Bearer " +:+ token) "Bearer " = true
  ∧ substring ("Bearer " +:+ token) 7 = token.
Proof. repeat split; reflexivity. Qed.

Lemma token_payload_claims (user : AuthenticatedUser) :
  js_get (token_payload user) "id" = id user
  ∧ js_get (token_payload user) "sub" = sub user
  ∧ js_get (token_payload user) "email" = email user
  ∧ js_get (token_payload user) "role" = role user
  ∧ js_get (token_payload user) "division_id" = division_id user
  ∧ js_get (token_payload user) "name" = JUndefined
  ∧ js_get (token_payload user) "spending_limit_cents" = JUndefined.
Proof. unfold js_get, token_payload. repeat split; by simplify_map_eq. Qed.

Lemma token_payload_unstamped (user : AuthenticatedUser) :
  token_payload user !! "iat" = None ∧ token_payload user !! "exp" = None.
Proof. unfold token_payload. split; by simplify_map_eq. Qed.

(** C9. The token round trip keeps neither the spending limit nor the name:
    for a user [u], the principal extracted from a request that bears
    [generateToken u] has [spending_limit_cents = 0] and [name = undefined]
    whatever [u] holds there, and so has the principal [requireAuth]
    returns; the five signed claims come back unchanged. The one
    hypothesis is about jsonwebtoken alone, for every payload: what it
    signs, it verifies and decodes to the same claims. *)
Theorem token_round_trip_drops_limit_and_name {Qry Body} (env : Env)
  (user : AuthenticatedUser) (poId : string) (q : Qry) (b : Body) :
  jwt_round_trip env →
  let request :=
    {| headers_authorization := Some ("Bearer " +:+ generateToken env user);
       params_id := poId; query := q; body := b |} in
  let principal :=
    {| id := id user; sub := sub user; email := email user; name := JUndefined;
       role := role user; division_id := division_id user;
       spending_limit_cents := JNumber 0 |} in
  extractUserFromRequest env request = Some principal
  ∧ requireAuth env request = Ok principal.
Proof.
  intros Hjwt request principal.
  destruct (token_payload_unstamped user) as [Hiat Hexp].
  destruct (Hjwt (token_payload user) Hiat Hexp) as (decoded & Hverify & Hclaims).
  assert (Hextract : extractUserFromRequest env request = Some principal).
  { unfold extractUserFromRequest, request, principal.
    cbn [headers_authorization].
    destruct (bearer_header (generateToken env user)) as (-> & -> & ->).
    cbn [orb negb]. unfold verifyToken, generateToken. rewrite Hverify.
    rewrite !Hclaims by done.
    destruct (token_payload_claims user) as (-> & -> & -> & -> & -> & -> & ->).
    reflexivity. }
  split; [exact Hextract|]. unfold requireAuth. rewrite Hextract. reflexivity.
Qed.

Lemma decoded_claims_get (payload : gmap string jsval) (key : string) :
  key ≠ "iat" → key ≠ "exp" →
  js_get (Sample.decoded_claims payload) key = js_get payload key.
Proof.
  intros Hiat Hexp. unfold js_get, Sample.decoded_claims.
  rewrite !lookup_insert_ne by done. reflexivity.
Qed.

Lemma positive_of_bits_of_positive (p : positive) :
  Plain.positive_of_bits (Plain.bits_of_positive p) = Some p.
Proof. induction p as [q IH|q IH|]; simpl; [by rewrite IH..|done]. Qed.

(** The stand-in does what [jwt_round_trip] asks. *)
Lemma plain_round_trip : jwt_round_trip Plain.env.
Proof.
  intros payload _ _. exists (Sample.decoded_claims payload). split.
  - simpl. unfold Plain.verify, Plain.sign.
    rewrite positive_of_bits_of_positive. simpl. by rewrite decode_encode.
  - intros key Hiat Hexp. by apply decoded_claims_get.
Qed.

Lemma token_round_trip_drops_limit_and_name_witness :
  spending_limit_cents Sample.manager = JNumber 250000
  ∧ name Sample.manager = JString "Max Manager"
  ∧ (spending_limit_cents <$>
       extractUserFromRequest Plain.env
         (Sample.request (Some ("Bearer " +:+ generateToken Plain.env Sample.manager))
                         "" tt tt)) = Some (JNumber 0)
  ∧ (name <$>
       extractUserFromRequest Plain.env
         (Sample.request (Some ("Bearer " +:+ generateToken Plain.env Sample.manager))
                         "" tt tt)) = Some JUndefined.
Proof.
  split; [reflexivity|]. split; [reflexivity|].
  pose proof (token_round_trip_drops_limit_and_name Plain.env Sample.manager "" tt tt
                plain_round_trip) as [H _].
  unfold Sample.request. rewrite H. split; reflexivity.
Defined.

(** ** Permission resolution *)

(** C10. Permission resolution fails closed: when the query throws,
    [getUserPermissions] settles to the empty list instead of rejecting, so
    [hasPermission] is false for every permission and [requirePermission]
    refuses. *)
Theorem permission_resolution_fails_closed (n : nat) (userId permission : string) :
  let w := {| conn := Down; draws := n |} in
  settled (Async.select (select_permissions userId)) w = Throw DatabaseError
  ∧ settled (getUserPermissions userId) w = Ok []
  ∧ settled (hasPermission userId permission) w = Ok false
  ∧ settled (requirePermission userId permission) w
    = Throw (Error ("Forbidden: Missing required permission: " +:+ permission)).
Proof. repeat split; reflexivity. Qed.

Lemma elem_of_guarded {A} (b : bool) (x y : A) :
  x ∈ (if b then [y] else []) ↔ b = true ∧ x = y.
Proof.
  destruct b.
  - rewrite list_elem_of_singleton. tauto.
  - rewrite elem_of_nil. split; [tauto|]. intros [? _]. discriminate.
Qed.

Lemma elem_of_permission_rows (st : Store) (userId name : string) :
  name ∈ permission_rows userId st ↔
  ∃ u ur rp p, resolves st userId u ur rp p ∧ permission_name p = name.
Proof.
  unfold permission_rows, resolves. split.
  - intros H.
    apply list_elem_of_bind in H as (u & H & Hu).
    apply list_elem_of_bind in H as (ur & H & Hur).
    apply list_elem_of_bind in H as (rp & H & Hrp).
    apply list_elem_of_bind in H as (p & H & Hp).
    apply elem_of_guarded in H as [H ->].
    rewrite !andb_true_iff, !bool_decide_eq_true in H.
    destruct H as [[[[[[[H1 H2] H3] H4] H5] H6] H7] H8].
    exists u, ur, rp, p. repeat split; congruence.
  - intros (u & ur & rp & p & H & <-).
    destruct H as (Hu & Hur & Hrp & Hp & H1 & H2 & H3 & H4 & H5 & H6 & H7 & H8).
    apply list_elem_of_bind. exists u. split; [|done].
    apply list_elem_of_bind. exists ur. split; [|done].
    apply list_elem_of_bind. exists rp. split; [|done].
    apply list_elem_of_bind. exists p. split; [|done].
    apply elem_of_guarded. split; [|done].
    rewrite !andb_true_iff, !bool_decide_eq_true. repeat split; congruence.
Qed.

Lemma elem_of_spec_permission_rows (st : Store) (userId name : string) :
  name ∈ spec_permission_rows userId st ↔
  ∃ ur r rp p, spec_resolves st userId ur r rp p ∧ permission_name p = name.
Proof.
  unfold spec_permission_rows, spec_resolves. split.
  - intros H.
    apply list_elem_of_bind in H as (ur & H & Hur).
    apply list_elem_of_bind in H as (r & H & Hr).
    apply list_elem_of_bind in H as (rp & H & Hrp).
    apply list_elem_of_bind in H as (p & H & Hp).
    apply elem_of_guarded in H as [H ->].
    rewrite !andb_true_iff, !bool_decide_eq_true in H.
    destruct H as [[[[[[[H1 H2] H3] H4] H5] H6] H7] H8].
    exists ur, r, rp, p. repeat split; congruence.
  - intros (ur & r & rp & p & H & <-).
    destruct H as (Hur & Hr & Hrp & Hp & H1 & H2 & H3 & H4 & H5 & H6 & H7 & H8).
    apply list_elem_of_bind. exists ur. split; [|done].
    apply list_elem_of_bind. exists r. split; [|done].
    apply list_elem_of_bind. exists rp. split; [|done].
    apply list_elem_of_bind. exists p. split; [|done].
    apply elem_of_guarded. split; [|done].
    rewrite !andb_true_iff, !bool_decide_eq_true. repeat split; congruence.
Qed.

(** C4 (as amended). On a reachable database [getUserPermissions] settles
    to a duplicate-free list holding exactly the names of the non-deleted
    permissions linked, by a non-deleted role-permission assignment, to a
    role id the user holds by a non-deleted user-role assignment, provided
    the user row itself is non-deleted; the role row is not consulted.
    [hasPermission] is membership in that list. Where the user row is
    non-deleted and every held role is a non-deleted row, this is the
    union of the held roles' permission sets of the specification. *)
Theorem getUserPermissions_resolution (st : Store) (n : nat) (userId : string) :
  let w := {| conn := Up st; draws := n |} in
  let resolved := select_permissions userId st in
  settled (getUserPermissions userId) w = Ok resolved
  ∧ NoDup resolved
  ∧ (∀ name, name ∈ resolved ↔
             ∃ u ur rp p, resolves st userId u ur rp p ∧ permission_name p = name)
  ∧ (∀ name, settled (hasPermission userId name) w = Ok false ↔ name ∉ resolved)
  ∧ ((∃ u, u ∈ users st ∧ user_id u = userId ∧ user_deleted_at u = None) →
     (∀ ur, ur ∈ user_roles st → ur_user_id ur = userId → ur_deleted_at ur = None →
            ∃ r, r ∈ roles st ∧ role_id r = ur_role_id ur ∧ role_deleted_at r = None) →
     ∀ name, name ∈ resolved ↔ name ∈ spec_permissions userId st).
Proof.
  intros w resolved. unfold resolved, select_permissions.
  split; [reflexivity|]. split; [apply NoDup_remove_dups|].
  split; [|split].
  - intros name. rewrite elem_of_remove_dups. apply elem_of_permission_rows.
  - intros name. unfold settled, hasPermission, getUserPermissions. simpl.
    unfold includes. split.
    + intros [= H]. apply bool_decide_eq_false in H. exact H.
    + intros H. f_equal. apply bool_decide_eq_false. exact H.
  - intros (u & Hu & Hid & Hlive) Hroles name.
    unfold spec_permissions. rewrite !elem_of_remove_dups.
    rewrite elem_of_permission_rows, elem_of_spec_permission_rows. split.
    + intros (u' & ur & rp & p & H & Hname).
      destruct H as (Hu' & Hur & Hrp & Hp & H1 & H2 & H3 & H4 & H5 & H6 & H7 & H8).
      destruct (Hroles ur Hur H3 H4) as (r & Hr & Hrid & Hrlive).
      exists ur, r, rp, p. split; [|done]. unfold spec_resolves.
      repeat split; congruence.
    + intros (ur & r & rp & p & H & Hname).
      destruct H as (Hur & Hr & Hrp & Hp & H1 & H2 & H3 & H4 & H5 & H6 & H7 & H8).
      exists u, ur, rp, p. split; [|done]. unfold resolves.
      repeat split; congruence.
Qed.

Lemma getUserPermissions_resolution_witness :
  let st := Sample.rbac_store false false in
  let userId := "33333333-3333-4333-8333-333333333333" in
  "pos:approve" ∈ select_permissions userId st
  ∧ "pos:approve" ∈ spec_permissions userId st.
Proof.
  intros st userId.
  destruct (getUserPermissions_resolution st 0 userId) as (_ & _ & _ & _ & Hspec).
  assert (Hin : "pos:approve" ∈ select_permissions userId st).
  { apply (bool_decide_unpack _). vm_compute. exact I. }
  split; [exact Hin|]. revert Hin. apply Hspec.
  - eexists. split; [apply list_elem_of_here|]. split; reflexivity.
  - intros ur Hur _ _. apply list_elem_of_singleton in Hur. subst ur.
    eexists. split; [apply list_elem_of_here|]. split; reflexivity.
Defined.

(** C4 (as stated). A role row that is soft-deleted still grants its
    permissions, and a soft-deleted user resolves to nothing although the
    role assignments are live: the resolved set is not the specification's
    union in either store. *)
Lemma getUserPermissions_not_spec_union :
  let userId := "33333333-3333-4333-8333-333333333333" in
  let deleted_role := Sample.rbac_store false true in
  let deleted_user := Sample.rbac_store true false in
  settled (getUserPermissions userId) {| conn := Up deleted_role; draws := 0 |}
    = Ok ["pos:approve"]
  ∧ spec_permissions userId deleted_role = []
  ∧ settled (getUserPermissions userId) {| conn := Up deleted_user; draws := 0 |}
    = Ok []
  ∧ spec_permissions userId deleted_user = ["pos:approve"]
  ∧ settled (hasPermission userId "pos:approve") {| conn := Up deleted_user; draws := 0 |}
    = Ok false.
Proof. repeat split; vm_compute; reflexivity. Qed.

(** ** Route handlers *)

Lemma requireAuth_unauthenticated {Qry Body} (env : Env) (request : FastifyRequest Qry Body) :
  extractUserFromRequest env request = None →
  requireAuth env request = Throw (Error "Unauthorized: Valid JWT token required").
Proof. intros H. unfold requireAuth. rewrite H. reflexivity. Qed.

Lemma requireRole_outcome (user : AuthenticatedUser) (allowedRoles : list string) :
  requireRole user allowedRoles = Ok tt
  ∨ requireRole user allowedRoles
    = Throw (Error ("Forbidden: Requires one of roles: " +:+ join ", " allowedRoles)).
Proof. unfold requireRole. destruct (includes _ _); simpl; auto. Qed.

Section AuthFailures.

Context {ListQuery : Type} (select_listing : ListQuery → Store → list PurchaseOrderRow * Z).
Context (env : Env) (w : World).
Context (listing : FastifyRequest ListQuery unit).
Context (creation : FastifyRequest unit CreateBody).
Context (transition : FastifyRequest unit StatusBody).

(** C5 (what the code does). On the purchase-order routes a request
    without a usable token, and an authenticated request that fails the
    role gate, are both answered with status 500 and the route's generic
    failure message; nothing is written. The status is neither 401 nor
    403 and the body does not name the unmet requirement. *)
Theorem purchase_order_routes_mask_auth_failures :
  (extractUserFromRequest env listing = None →
   list_purchase_orders ListQuery select_listing env listing w
   = (Ok (send 500 (ErrorPayload "Failed to fetch purchase orders")), w))
  ∧ (extractUserFromRequest env creation = None →
     create_purchase_order env creation w
     = (Ok (send 500 (ErrorPayload "Failed to create purchase order")), w))
  ∧ (extractUserFromRequest env transition = None →
     update_purchase_order_status env transition w
     = (Ok (send 500 (ErrorPayload "Failed to update purchase order status")), w))
  ∧ (∀ user, extractUserFromRequest env listing = Some user →
       requireRole user ["admin"; "manager"; "user"] ≠ Ok tt →
       list_purchase_orders ListQuery select_listing env listing w
       = (Ok (send 500 (ErrorPayload "Failed to fetch purchase orders")), w))
  ∧ (∀ user, extractUserFromRequest env creation = Some user →
       requireRole user ["admin"; "manager"] ≠ Ok tt →
       create_purchase_order env creation w
       = (Ok (send 500 (ErrorPayload "Failed to create purchase order")), w))
  ∧ (∀ user, extractUserFromRequest env transition = Some user →
       requireRole user ["admin"; "manager"] ≠ Ok tt →
       update_purchase_order_status env transition w
       = (Ok (send 500 (ErrorPayload "Failed to update purchase order status")), w)).
Proof.
  repeat split.
  1-3: intros H%requireAuth_unauthenticated.
  4-6: intros user Hu Hrole.
  - unfold list_purchase_orders. run_async. rewrite H. reflexivity.
  - unfold create_purchase_order. run_async. rewrite H. reflexivity.
  - unfold update_purchase_order_status, validate_status_update. run_async.
    rewrite H. reflexivity.
  - unfold list_purchase_orders, requireAuth. run_async. rewrite Hu.
    destruct (requireRole_outcome user ["admin"; "manager"; "user"]) as [E|E];
      [done|]. rewrite E. reflexivity.
  - unfold create_purchase_order, requireAuth. run_async. rewrite Hu.
    destruct (requireRole_outcome user ["admin"; "manager"]) as [E|E];
      [done|]. rewrite E. reflexivity.
  - unfold update_purchase_order_status, validate_status_update, requireAuth.
    run_async. rewrite Hu.
    destruct (requireRole_outcome user ["admin"; "manager"]) as [E|E];
      [done|]. rewrite E. reflexivity.
Qed.

End AuthFailures.

(** C5 (at the failing inputs): [GET /] without an [Authorization] header,
    and [POST /] by an authenticated [basic] user. *)
Lemma purchase_order_routes_mask_auth_failures_witness :
  let w := Sample.world [] in
  let anonymous := Sample.request None "" tt tt in
  let basic := Sample.request (Some "Bearer token-basic") "" tt
                              (Sample.create_body "PO-2025-002" None) in
  list_purchase_orders unit (λ _ st, (purchase_orders st, 0)) Sample.env anonymous w
  = (Ok (send 500 (ErrorPayload "Failed to fetch purchase orders")), w)
  ∧ create_purchase_order Sample.env basic w
    = (Ok (send 500 (ErrorPayload "Failed to create purchase order")), w).
Proof.
  intros w anonymous basic.
  destruct (purchase_order_routes_mask_auth_failures
              (λ _ st, (purchase_orders st, 0)) Sample.env w anonymous basic
              (Sample.request None "" tt {| status := "pending" |}))
    as (Hlist & _ & _ & _ & Hcreate & _).
  split.
  - apply Hlist. reflexivity.
  - eapply Hcreate.
    + vm_compute. reflexivity.
    + vm_compute. discriminate.
Defined.

(** ** Creating purchase orders *)

Lemma issue_unless_nil (ok : bool) (path : string) :
  issue_unless ok path = [] → ok = true.
Proof. destruct ok; [done|discriminate]. Qed.

Lemma parse_ok (env : Env) (b : CreateBody) (data : CreateData) :
  createPurchaseOrderSchema_parse env b = Ok data →
  body_po_number b = Some (data_po_number data)
  ∧ data_status data = default "draft" (body_status b)
  ∧ data_status data ∈ status_enum.
Proof.
  unfold createPurchaseOrderSchema_parse.
  destruct (schema_issues env b) eqn:E; [|discriminate]. intros [= <-]. simpl.
  unfold schema_issues in E.
  apply app_eq_nil in E as [E1 E]. apply app_eq_nil in E as [_ E].
  apply app_eq_nil in E as [E3 _].
  apply issue_unless_nil in E1. apply issue_unless_nil in E3.
  destruct (body_po_number b) as [number|]; [|discriminate].
  split; [reflexivity|]. split; [reflexivity|].
  destruct (body_status b) as [status|]; simpl in *.
  - apply includes_true in E3. exact E3.
  - apply (bool_decide_unpack _). vm_compute. exact I.
Qed.

Lemma head_filter_is_Some {A} (P : A → Prop) `{∀ x, Decision (P x)} (l : list A) :
  (∃ x, x ∈ l ∧ P x) → is_Some (head (filter P l)).
Proof.
  intros (x & Hx & HP).
  assert (Hin : x ∈ filter P l) by (apply list_elem_of_filter; done).
  destruct (filter P l); [by apply elem_of_nil in Hin|]. simpl. eauto.
Qed.

Lemma create_items_keep_orders (env : Env) (user : AuthenticatedUser)
  (newPO : PurchaseOrderRow) (items : list ItemData) (st : Store) (n : nat) :
  ∃ rows st' n',
    Async.for_each (create_item env user newPO) items {| conn := Up st; draws := n |}
    = (Ok rows, {| conn := Up st'; draws := n' |})
    ∧ purchase_orders st' = purchase_orders st.
Proof.
  revert st n. induction items as [|item items IH]; intros st n.
  - exists [], st, n. done.
  - simpl. unfold Async.bind at 1. unfold create_item at 1.
    unfold withCreateAudit, Async.bind, Async.draw, Async.execute, Async.ret. simpl.
    match goal with
    | |- context [Async.for_each _ items {| conn := Up ?s; draws := ?m |}] =>
      destruct (IH s m) as (rows & st' & n' & -> & Hpos)
    end.
    eexists _, st', n'. split; [reflexivity|]. rewrite Hpos. reflexivity.
Qed.

(** C6 (as amended). Every purchase order the create operation accepts
    (status 201) is appended to the table with the status the request
    names, which is one of the six of the enumeration, and with [draft]
    when the request names none. *)
Theorem created_status_is_requested_or_draft {Qry} (env : Env)
  (request : FastifyRequest Qry CreateBody) (w : World) (reply : Reply) :
  settled (create_purchase_order env request) w = Ok reply →
  statusCode reply = 201 →
  ∃ st st' newPO items,
    conn w = Up st
    ∧ conn (world_after (create_purchase_order env request) w) = Up st'
    ∧ payload reply = PurchaseOrderPayload newPO items
    ∧ purchase_orders st' = purchase_orders st ++ [newPO]
    ∧ po_status newPO = default "draft" (body_status (body request))
    ∧ po_status newPO ∈ status_enum.
Proof.
  unfold settled, world_after.
  destruct (create_purchase_order env request w) as [r w'] eqn:E. simpl.
  intros ->. revert E. destruct w as [c n]. unfold create_purchase_order.
  unfold Async.try_catch. unfold Async.bind at 1. unfold Async.lift at 1.
  destruct (requireAuth env request) as [user|e]; simpl.
  2: { destruct e; simpl; intros [= <- <-]; discriminate. }
  unfold Async.bind at 1. unfold Async.lift at 1.
  destruct (requireRole user ["admin"; "manager"]) as [[]|e]; simpl.
  2: { destruct e; simpl; intros [= <- <-]; discriminate. }
  unfold Async.bind at 1. unfold Async.lift at 1.
  destruct (createPurchaseOrderSchema_parse env (body request)) as [data|e] eqn:Hparse;
    simpl.
  2: { destruct e; simpl; intros [= <- <-]; discriminate. }
  apply parse_ok in Hparse as (Hnumber & Hstatus & Henum).
  unfold Async.bind at 1. unfold Async.select at 1. simpl.
  destruct c as [|st]; [intros [= <- <-]; discriminate|].
  case_bool_decide; [simpl; intros [= <- <-]; discriminate|].
  unfold Async.bind at 1. unfold Async.select at 1. simpl.
  case_bool_decide; simpl; [|intros [= <- <-]; discriminate].
  unfold Async.bind at 1. unfold withCreateAudit at 1.
  unfold Async.bind at 1. unfold Async.draw at 1. unfold Async.ret at 1.
  unfold Async.bind at 1. unfold Async.execute at 1. simpl.
  unfold Async.bind at 1.
  match goal with
  | |- context [Async.for_each (create_item env user ?po) ?items
                               {| conn := Up ?s; draws := ?m |}] =>
    destruct (create_items_keep_orders env user po items s m)
      as (rows & st' & n' & -> & Hpos)
  end.
  simpl. intros [= <- <-] _.
  eexists st, st', _, rows. simpl.
  repeat split; [exact Hpos|exact Hstatus|exact Henum].
Qed.

Lemma created_status_is_requested_or_draft_witness :
  let request := Sample.request (Some "Bearer token-manager") "" tt
                                (Sample.create_body "PO-2025-002" None) in
  ∃ st' newPO,
    conn (world_after (create_purchase_order Sample.env request) (Sample.world [])) = Up st'
    ∧ purchase_orders st' = [newPO]
    ∧ po_status newPO = "draft".
Proof.
  intros request.
  destruct (created_status_is_requested_or_draft Sample.env request (Sample.world [])
              (send 201 (PurchaseOrderPayload
                 (purchase_order_row
                    ({| data_po_number := "PO-2025-002";
                        data_supplier_id := "55555555-5555-4555-8555-555555555555";
                        data_status := "draft";
                        data_order_date := "2025-01-15T00:00:00.000Z";
                        data_expected_delivery_date := None;
                        data_total_amount := 1250%Q;
                        data_currency := "USD";
                        data_notes := None;
                        data_items := [parse_item Sample.item] |},
                     {| audit_id := "aaaaaaaa-0000-4000-8000-000000000000";
                        created_at := "2025-01-15T09:30:00.000Z";
                        created_updated_at := "2025-01-15T09:30:00.000Z";
                        created_by := JString "22222222-2222-4222-8222-222222222222";
                        created_updated_by :=
                          JString "22222222-2222-4222-8222-222222222222" |}))
                 [purchase_order_item_row "aaaaaaaa-0000-4000-8000-000000000000"
                    (parse_item Sample.item,
                     {| audit_id := "aaaaaaaa-0000-4000-8000-000000000001";
                        created_at := "2025-01-15T09:30:00.000Z";
                        created_updated_at := "2025-01-15T09:30:00.000Z";
                        created_by := JString "22222222-2222-4222-8222-222222222222";
                        created_updated_by :=
                          JString "22222222-2222-4222-8222-222222222222" |})]))
              ltac:(vm_compute; reflexivity) eq_refl)
    as (st & st' & newPO & items & Hst & Hst' & _ & Hpos & Hstatus & _).
  injection Hst as <-.
  exists st', newPO. split; [exact Hst'|]. split; [exact Hpos|exact Hstatus].
Defined.

(** C6 (as stated). A create request that names the status [approved] is
    accepted and stored as [approved], a status that no legal transition
    reaches from [draft] in one step. *)
Lemma create_persists_requested_status :
  let request := Sample.request (Some "Bearer token-admin") "" tt
                                (Sample.create_body "PO-2025-002" (Some "approved")) in
  let run := create_purchase_order Sample.env request (Sample.world []) in
  match fst run with Ok reply => statusCode reply | Throw _ => 0 end = 201
  ∧ match conn (snd run) with
    | Up st => po_status <$> purchase_orders st
    | Down => []
    end = ["approved"]
  ∧ transition_allowed "draft" "approved" = Ok false.
Proof. vm_compute. repeat split; reflexivity. Qed.

(** C7. Where a non-deleted purchase order with number [N] exists, a create
    request for [N] inserts nothing: the world after the handler is the
    world before, the reply is an error, and for a request that passes
    authentication, the role gate and validation it is the 400 reply
    [Purchase order number already exists]. *)
Theorem create_rejects_duplicate_number {Qry} (env : Env)
  (request : FastifyRequest Qry CreateBody) (st : Store) (n : nat) (number : string) :
  (∃ po, po ∈ purchase_orders st ∧ po_number po = number ∧ po_deleted_at po = None) →
  body_po_number (body request) = Some number →
  let w := {| conn := Up st; draws := n |} in
  world_after (create_purchase_order env request) w = w
  ∧ (∃ reply, settled (create_purchase_order env request) w = Ok reply
              ∧ (statusCode reply = 400 ∨ statusCode reply = 500))
  ∧ (∀ user, requireAuth env request = Ok user →
             requireRole user ["admin"; "manager"] = Ok tt →
             schema_issues env (body request) = [] →
             settled (create_purchase_order env request) w
             = Ok (send 400 (ErrorPayload "Purchase order number already exists"))).
Proof.
  intros Hlive Hnumber w.
  assert (Hrun : ∃ reply,
             create_purchase_order env request w = (Ok reply, w)
             ∧ (statusCode reply = 400 ∨ statusCode reply = 500)
             ∧ (∀ user, requireAuth env request = Ok user →
                  requireRole user ["admin"; "manager"] = Ok tt →
                  schema_issues env (body request) = [] →
                  reply = send 400 (ErrorPayload "Purchase order number already exists"))).
  { unfold create_purchase_order, Async.try_catch.
    unfold Async.bind at 1. unfold Async.lift at 1.
    destruct (requireAuth env request) as [user|e]; simpl.
    2: { destruct e; simpl; eexists; (split; [reflexivity|]); split; auto; discriminate. }
    unfold Async.bind at 1. unfold Async.lift at 1.
    destruct (requireRole user ["admin"; "manager"]) as [[]|e] eqn:Hrole; simpl.
    2: { destruct (requireRole_outcome user ["admin"; "manager"]) as [E|E];
           rewrite E in Hrole; [discriminate|]. injection Hrole as <-. simpl.
         eexists. split; [reflexivity|]. split; [auto|].
         intros user0 [= <-] H. rewrite E in H. discriminate. }
    unfold Async.bind at 1. unfold Async.lift at 1.
    destruct (createPurchaseOrderSchema_parse env (body request)) as [data|e] eqn:Hparse;
      simpl.
    2: { unfold createPurchaseOrderSchema_parse in Hparse.
         destruct (schema_issues env (body request)) eqn:Hissues; [discriminate|].
         injection Hparse as <-. simpl. eexists. split; [reflexivity|].
         split; [auto|]. intros; discriminate. }
    apply parse_ok in Hparse as (Hdata & _ & _).
    rewrite Hnumber in Hdata. injection Hdata as ->.
    unfold Async.bind at 1. unfold Async.select at 1. simpl.
    rewrite bool_decide_eq_true_2.
    2: { apply head_filter_is_Some. destruct Hlive as (po & ? & ? & ?). eauto. }
    eexists. split; [reflexivity|]. split; [simpl; auto|]. reflexivity. }
  destruct Hrun as (reply & Hrun & Hcode & Hconflict).
  unfold settled, world_after. rewrite Hrun. simpl.
  split; [reflexivity|]. split; [eauto|].
  intros user H1 H2 H3. f_equal. eauto.
Qed.

Lemma create_rejects_duplicate_number_witness :
  let request := Sample.request (Some "Bearer token-admin") "" tt
                                (Sample.create_body "PO-2025-001" (Some "draft")) in
  let w := Sample.world [Sample.order "pending"] in
  settled (create_purchase_order Sample.env request) w
  = Ok (send 400 (ErrorPayload "Purchase order number already exists"))
  ∧ world_after (create_purchase_order Sample.env request) w = w.
Proof.
  intros request w.
  destruct (create_rejects_duplicate_number Sample.env request
              (Sample.store [Sample.order "pending"]) 0 "PO-2025-001")
    as (Hworld & _ & Hconflict).
  - exists (Sample.order "pending").
    split; [apply list_elem_of_here|]. split; reflexivity.
  - reflexivity.
  - split; [|exact Hworld].
    eapply Hconflict; vm_compute; reflexivity.
Defined.

(** ** Racing status updates *)

(** The handler is its two halves in sequence. *)
Lemma status_update_splits {Qry} (env : Env) (request : FastifyRequest Qry StatusBody)
  (w : World) :
  update_purchase_order_status env request w
  = (let* checked := status_update_reads env request in
     status_update_writes env checked) w.
Proof.
  unfold update_purchase_order_status, status_update_reads, status_update_writes,
    Async.try_catch, Async.bind.
  destruct (validate_status_update env request w) as [[[reply|u]|e] w']; reflexivity.
Qed.

Lemma filter_overwrite (poId status : string) (audit : UpdateAudit)
  (rows : list PurchaseOrderRow) :
  filter (λ po, po_id po = poId ∧ po_deleted_at po = None)
         (overwrite poId status audit <$> rows)
  = set_status status audit
      <$> filter (λ po, po_id po = poId ∧ po_deleted_at po = None) rows.
Proof.
  induction rows as [|po rows IH]; [reflexivity|].
  rewrite fmap_cons, !filter_cons, IH.
  assert (Hid : po_id (overwrite poId status audit po) = po_id po)
    by (unfold overwrite; case_bool_decide; reflexivity).
  assert (Hdel : po_deleted_at (overwrite poId status audit po) = po_deleted_at po)
    by (unfold overwrite; case_bool_decide; reflexivity).
  rewrite Hid, Hdel.
  destruct (decide (po_id po = poId ∧ po_deleted_at po = None)) as [[H1 H2]|];
    [|reflexivity].
  rewrite fmap_cons. f_equal. unfold overwrite.
  rewrite bool_decide_eq_true_2 by done. reflexivity.
Qed.

(** The [UPDATE] sets the status whatever status is stored. *)
Lemma update_status_unconditional (poId status : string) (audit : UpdateAudit) (st : Store) :
  select_current_status poId (update_status poId (status, audit) st)
  = (λ _, status) <$> select_current_status poId st.
Proof.
  unfold select_current_status, update_status, with_purchase_orders. simpl.
  rewrite filter_overwrite.
  destruct (filter _ (purchase_orders st)); reflexivity.
Qed.

Lemma status_update_reads_pass {Qry} (env : Env) (request : FastifyRequest Qry StatusBody)
  (st : Store) (n : nat) (user : AuthenticatedUser) (current : string) :
  requireAuth env request = Ok user →
  requireRole user ["admin"; "manager"] = Ok tt →
  isValidUUID (params_id request) = true →
  select_current_status (params_id request) st = Some current →
  (current, status (body request)) ∈ canonical_edges →
  status_update_reads env request {| conn := Up st; draws := n |}
  = (Ok (inr {| pending_id := params_id request; pending_status := status (body request);
                pending_user := user |}),
     {| conn := Up st; draws := n |}).
Proof.
  intros Hauth Hrole Huuid Hcurrent Hedge%transition_allowed_edge.
  unfold status_update_reads, validate_status_update.
  unfold Async.try_catch, Async.bind, Async.lift, Async.select, Async.ret.
  rewrite Hauth, Hrole, Huuid. simpl. rewrite Hcurrent, Hedge. reflexivity.
Qed.

(** C8 (as amended). The [UPDATE] of a transition is conditioned on the id
    alone, after a separate [SELECT] and an in-memory check. When two
    authorized requests for the same order both read its status before
    either writes, and each asks for a transition that is legal from the
    status read, both are answered with success and the order ends in the
    status of the later write. *)
Theorem racing_status_updates_both_succeed {Qry} (env : Env)
  (first second : FastifyRequest Qry StatusBody) (st : Store) (n : nat)
  (user1 user2 : AuthenticatedUser) (current : string) :
  requireAuth env first = Ok user1 →
  requireRole user1 ["admin"; "manager"] = Ok tt →
  requireAuth env second = Ok user2 →
  requireRole user2 ["admin"; "manager"] = Ok tt →
  params_id second = params_id first →
  isValidUUID (params_id first) = true →
  select_current_status (params_id first) st = Some current →
  (current, status (body first)) ∈ canonical_edges →
  (current, status (body second)) ∈ canonical_edges →
  let w := {| conn := Up st; draws := n |} in
  settled (racing_status_updates env first second) w
  = Ok (send 200 (MessagePayload ("Purchase order status updated to " +:+ status (body first))),
        send 200 (MessagePayload ("Purchase order status updated to " +:+ status (body second))))
  ∧ ∃ st', conn (world_after (racing_status_updates env first second) w) = Up st'
           ∧ select_current_status (params_id first) st' = Some (status (body second)).
Proof.
  intros Hauth1 Hrole1 Hauth2 Hrole2 Hsame Huuid Hcurrent Hedge1 Hedge2 w.
  assert (Hrun : ∃ st',
    racing_status_updates env first second w
    = (Ok (send 200 (MessagePayload ("Purchase order status updated to " +:+ status (body first))),
           send 200 (MessagePayload ("Purchase order status updated to " +:+ status (body second)))),
       {| conn := Up st'; draws := S (S n) |})
    ∧ select_current_status (params_id first) st' = Some (status (body second))).
  { unfold racing_status_updates, w.
    unfold Async.bind at 1.
    rewrite (status_update_reads_pass env first st n user1 current) by done.
    unfold Async.bind at 1.
    rewrite (status_update_reads_pass env second st n user2 current)
      by (rewrite ?Hsame; done).
    rewrite Hsame.
    eexists. split; [reflexivity|].
    rewrite !update_status_unconditional. cbn [pending_id pending_status].
    rewrite Hcurrent. reflexivity. }
  destruct Hrun as (st' & Hrun & Hstatus).
  unfold settled, world_after. rewrite Hrun. simpl. eauto.
Qed.

Lemma racing_status_updates_both_succeed_witness :
  let po := "66666666-6666-4666-8666-666666666666" in
  let first := Sample.request (Some "Bearer token-admin") po tt {| status := "pending" |} in
  let second := Sample.request (Some "Bearer token-manager") po tt {| status := "cancelled" |} in
  let w := Sample.world [Sample.order "draft"] in
  settled (racing_status_updates Sample.env first second) w
  = Ok (send 200 (MessagePayload "Purchase order status updated to pending"),
        send 200 (MessagePayload "Purchase order status updated to cancelled"))
  ∧ stored_status po (world_after (racing_status_updates Sample.env first second) w)
    = Some "cancelled".
Proof.
  intros po first second w.
  destruct (racing_status_updates_both_succeed Sample.env first second
              (Sample.store [Sample.order "draft"]) 0
              {| id := id Sample.admin; sub := sub Sample.admin;
                 email := email Sample.admin; name := JUndefined;
                 role := role Sample.admin; division_id := JUndefined;
                 spending_limit_cents := JNumber 0 |}
              {| id := id Sample.manager; sub := sub Sample.manager;
                 email := email Sample.manager; name := JUndefined;
                 role := role Sample.manager; division_id := division_id Sample.manager;
                 spending_limit_cents := JNumber 0 |}
              "draft")
    as [Hreplies _].
  1-7: vm_compute; reflexivity.
  1-2: apply (bool_decide_unpack _); vm_compute; exact I.
  split; [exact Hreplies|]. vm_compute. reflexivity.
Defined.

(** C8 (as stated). An order in [draft] and two racing requests, to
    [cancelled] and to [pending]: neither is rejected, and the order goes
    from [cancelled], a terminal status, to [pending]. *)
Lemma status_update_race_has_no_loser :
  let po := "66666666-6666-4666-8666-666666666666" in
  let first := Sample.request (Some "Bearer token-admin") po tt {| status := "cancelled" |} in
  let second := Sample.request (Some "Bearer token-manager") po tt {| status := "pending" |} in
  let w := Sample.world [Sample.order "draft"] in
  let between :=
    let* checked1 := status_update_reads Sample.env first in
    do* status_update_reads Sample.env second in
    status_update_writes Sample.env checked1 in
  settled (racing_status_updates Sample.env first second) w
  = Ok (send 200 (MessagePayload "Purchase order status updated to cancelled"),
        send 200 (MessagePayload "Purchase order status updated to pending"))
  ∧ stored_status po (world_after between w) = Some "cancelled"
  ∧ stored_status po (world_after (racing_status_updates Sample.env first second) w)
    = Some "pending"
  ∧ transition_allowed "cancelled" "pending" = Ok false.
Proof. vm_compute. repeat split; reflexivity. Qed.

(** * Further properties *)

(** ** Identifiers *)

(** ** UUID format *)

Lemma hex_digits_Some (n : nat) (s rest : string) :
  hex_digits n s = Some rest ↔
  ∃ pre, s = pre +:+ rest ∧ String.length pre = n ∧ all_hex pre = true.
Proof.
  revert s. induction n as [|n IH]; intros s; simpl.
  - split.
    + intros [= ->]. exists "". done.
    + intros (pre & -> & Hlen & _). destruct pre; [done|discriminate].
  - destruct s as [|c s].
    + split; [discriminate|]. intros (pre & Hs & Hlen & _).
      destruct pre; discriminate.
    + destruct (is_hex_digit c) eqn:Hc.
      * rewrite IH. split.
        -- intros (pre & -> & Hlen & Hhex). exists (String c pre).
           simpl. rewrite Hc, Hlen, Hhex. done.
        -- intros (pre & Hs & Hlen & Hhex). destruct pre as [|d pre]; [discriminate|].
           injection Hs as -> ->. simpl in Hlen, Hhex. injection Hlen as Hlen.
           apply andb_true_iff in Hhex as [_ Hhex]. exists pre. done.
      * split; [discriminate|]. intros (pre & Hs & Hlen & Hhex).
        destruct pre as [|d pre]; [discriminate|]. injection Hs as -> ->.
        simpl in Hhex. rewrite Hc in Hhex. discriminate.
Qed.

Lemma hyphen_Some (s rest : string) : hyphen s = Some rest ↔ s = "-" +:+ rest.
Proof.
  unfold hyphen. destruct s as [|c s]; [by split|].
  case_bool_decide as Hc.
  - subst c. split; [intros [= ->]; reflexivity|]. intros [= ->]. reflexivity.
  - split; [discriminate|]. intros [= -> _]. done.
Qed.

Lemma string_app_length (a b : string) :
  String.length (a +:+ b) = (String.length a + String.length b)%nat.
Proof.
  induction a as [|x a IH]; [reflexivity|].
  change (S (String.length (a +:+ b)) = S (String.length a + String.length b)).
  by rewrite IH.
Qed.

Lemma string_app_empty (a : string) : a +:+ "" = a.
Proof.
  induction a as [|x a IH]; [reflexivity|].
  change (String x (a +:+ "") = String x a). by rewrite IH.
Qed.

Lemma isValidUUID_iff (uuid : string) :
  isValidUUID uuid = true ↔
  ∃ a b c d e,
    uuid = a +:+ "-" +:+ b +:+ "-" +:+ c +:+ "-" +:+ d +:+ "-" +:+ e
    ∧ String.length a = 8%nat ∧ String.length b = 4%nat ∧ String.length c = 4%nat
    ∧ String.length d = 4%nat ∧ String.length e = 12%nat
    ∧ all_hex a = true ∧ all_hex b = true ∧ all_hex c = true
    ∧ all_hex d = true ∧ all_hex e = true.
Proof.
  unfold isValidUUID, uuid_rest. split.
  - intros H. unfold mbind, option_bind in H.
    destruct (hex_digits 8 uuid) as [s1|] eqn:E1; [|discriminate H].
    destruct (hyphen s1) as [s2|] eqn:E2; [|discriminate H].
    destruct (hex_digits 4 s2) as [s3|] eqn:E3; [|discriminate H].
    destruct (hyphen s3) as [s4|] eqn:E4; [|discriminate H].
    destruct (hex_digits 4 s4) as [s5|] eqn:E5; [|discriminate H].
    destruct (hyphen s5) as [s6|] eqn:E6; [|discriminate H].
    destruct (hex_digits 4 s6) as [s7|] eqn:E7; [|discriminate H].
    destruct (hyphen s7) as [s8|] eqn:E8; [|discriminate H].
    destruct (hex_digits 12 s8) as [s9|] eqn:E9; [|discriminate H].
    destruct s9; [|discriminate H]. clear H.
    apply hex_digits_Some in E1 as (a & -> & ? & ?).
    apply hyphen_Some in E2 as ->.
    apply hex_digits_Some in E3 as (b & -> & ? & ?).
    apply hyphen_Some in E4 as ->.
    apply hex_digits_Some in E5 as (c & -> & ? & ?).
    apply hyphen_Some in E6 as ->.
    apply hex_digits_Some in E7 as (d & -> & ? & ?).
    apply hyphen_Some in E8 as ->.
    apply hex_digits_Some in E9 as (e & -> & ? & ?).
    exists a, b, c, d, e. split; [|done].
    rewrite string_app_empty. reflexivity.
  - intros (a & b & c & d & e & -> & La & Lb & Lc & Ld & Le & Ha & Hb & Hc & Hd & He).
    assert (Hhyphen : ∀ s, hyphen ("-" +:+ s) = Some s) by reflexivity.
    assert (H1 : ∀ r, hex_digits 8 (a +:+ r) = Some r)
      by (intros r; apply hex_digits_Some; eauto).
    assert (H2 : ∀ r, hex_digits 4 (b +:+ r) = Some r)
      by (intros r; apply hex_digits_Some; eauto).
    assert (H3 : ∀ r, hex_digits 4 (c +:+ r) = Some r)
      by (intros r; apply hex_digits_Some; eauto).
    assert (H4 : ∀ r, hex_digits 4 (d +:+ r) = Some r)
      by (intros r; apply hex_digits_Some; eauto).
    assert (H5 : hex_digits 12 e = Some "").
    { apply hex_digits_Some. exists e. by rewrite string_app_empty. }
    unfold mbind, option_bind.
    rewrite H1, Hhyphen, H2, Hhyphen, H3, Hhyphen, H4, Hhyphen, H5. reflexivity.
Qed.

(** X1. [isValidUUID] accepts exactly the strings made of five runs of
    hexadecimal digits, upper or lower case, of lengths 8, 4, 4, 4 and 12,
    separated by single hyphens; every accepted string has 36 characters. *)
Theorem isValidUUID_shape (uuid : string) :
  (isValidUUID uuid = true ↔
   ∃ a b c d e,
     uuid = a +:+ "-" +:+ b +:+ "-" +:+ c +:+ "-" +:+ d +:+ "-" +:+ e
     ∧ String.length a = 8%nat ∧ String.length b = 4%nat ∧ String.length c = 4%nat
     ∧ String.length d = 4%nat ∧ String.length e = 12%nat
     ∧ all_hex a = true ∧ all_hex b = true ∧ all_hex c = true
     ∧ all_hex d = true ∧ all_hex e = true)
  ∧ (isValidUUID uuid = true → String.length uuid = 36%nat).
Proof.
  split; [apply isValidUUID_iff|].
  intros (a & b & c & d & e & -> & La & Lb & Lc & Ld & Le & _)%isValidUUID_iff.
  rewrite !string_app_length, La, Lb, Lc, Ld, Le. reflexivity.
Qed.

(** ** Authentication and role helpers *)

Lemma startsWith_split (s pre : string) :
  startsWith s pre = true → s = pre +:+ substring s (String.length pre).
Proof.
  revert s. induction pre as [|c pre IH]; intros s; simpl; [done|].
  destruct s as [|d s]; [discriminate|].
  intros [Hc Hs]%andb_true_iff. apply bool_decide_eq_true in Hc as ->.
  change (String d s = String d (pre +:+ substring s (String.length pre))).
  f_equal. apply IH, Hs.
Qed.

Lemma string_app_inj (pre a b : string) : pre +:+ a = pre +:+ b → a = b.
Proof.
  induction pre as [|c pre IH]; [done|]. intros H.
  change (String c (pre +:+ a) = String c (pre +:+ b)) in H.
  injection H as H. exact (IH H).
Qed.

(** The principal [extractUserFromRequest] builds from decoded claims. *)
Lemma extract_bearer {Qry Body} (env : Env) (token : string) (poId : string)
  (q : Qry) (b : Body) :
  extractUserFromRequest env
    {| headers_authorization := Some ("Bearer " +:+ token); params_id := poId;
       query := q; body := b |}
  = (λ decoded,
      {| id := js_get decoded "id"; sub := js_get decoded "sub";
         email := js_get decoded "email"; name := js_get decoded "name";
         role := js_get decoded "role"; division_id := js_get decoded "division_id";
         spending_limit_cents :=
           js_or (js_get decoded "spending_limit_cents") (JNumber 0) |})
    <$> jwt_verify env token.
Proof.
  unfold extractUserFromRequest. cbn [headers_authorization].
  destruct (bearer_header token) as (-> & -> & ->). cbn [orb negb].
  unfold verifyToken. destruct (jwt_verify env token); reflexivity.
Qed.

Lemma requireAuth_Ok {Qry Body} (env : Env) (request : FastifyRequest Qry Body)
  (user : AuthenticatedUser) :
  requireAuth env request = Ok user ↔
  ∃ token decoded,
    headers_authorization request = Some ("Bearer " +:+ token)
    ∧ jwt_verify env token = Some decoded
    ∧ user = {| id := js_get decoded "id"; sub := js_get decoded "sub";
                email := js_get decoded "email"; name := js_get decoded "name";
                role := js_get decoded "role";
                division_id := js_get decoded "division_id";
                spending_limit_cents :=
                  js_or (js_get decoded "spending_limit_cents") (JNumber 0) |}.
Proof.
  destruct request as [header poId q b]. split.
  - unfold requireAuth, extractUserFromRequest. cbn [headers_authorization].
    destruct header as [authHeader|]; [|discriminate].
    destruct (bool_decide (authHeader = "")); [discriminate|]. cbn [orb].
    destruct (startsWith authHeader "Bearer ") eqn:Hprefix; [|discriminate].
    cbn [negb]. apply startsWith_split in Hprefix.
    unfold verifyToken.
    destruct (jwt_verify env (substring authHeader 7)) as [decoded|] eqn:Hverify;
      [|discriminate].
    intros [= <-]. exists (substring authHeader 7), decoded.
    split; [f_equal; exact Hprefix|]. done.
  - intros (token & decoded & Hheader & Hverify & ->).
    cbn [headers_authorization] in Hheader. subst header.
    unfold requireAuth. rewrite extract_bearer, Hverify. reflexivity.
Qed.

(** X2. [requireAuth] returns a principal exactly when the [Authorization]
    header is [Bearer ] followed by a token that jsonwebtoken verifies, and
    the principal is read off the decoded claims; in every other case it
    throws the one [Unauthorized] error. *)
Theorem requireAuth_sound {Qry Body} (env : Env) (request : FastifyRequest Qry Body) :
  (∀ user,
     requireAuth env request = Ok user ↔
     ∃ token decoded,
       headers_authorization request = Some ("Bearer " +:+ token)
       ∧ jwt_verify env token = Some decoded
       ∧ user = {| id := js_get decoded "id"; sub := js_get decoded "sub";
                   email := js_get decoded "email"; name := js_get decoded "name";
                   role := js_get decoded "role";
                   division_id := js_get decoded "division_id";
                   spending_limit_cents :=
                     js_or (js_get decoded "spending_limit_cents") (JNumber 0) |})
  ∧ ((∃ user, requireAuth env request = Ok user)
     ∨ requireAuth env request = Throw (Error "Unauthorized: Valid JWT token required")).
Proof.
  split; [intros user; apply requireAuth_Ok|].
  unfold requireAuth. destruct (extractUserFromRequest env request); eauto.
Qed.

Lemma includes_role (xs : list string) (v : jsval) :
  includes (JString <$> xs) v = true ↔ ∃ R, v = JString R ∧ R ∈ xs.
Proof.
  unfold includes. rewrite bool_decide_eq_true, list_elem_of_fmap. naive_solver.
Qed.

Lemma requireRole_Ok (user : AuthenticatedUser) (allowedRoles : list string) :
  requireRole user allowedRoles = Ok tt ↔ ∃ R, role user = JString R ∧ R ∈ allowedRoles.
Proof.
  rewrite <- includes_role. unfold requireRole.
  destruct (includes _ _); simpl; split; done.
Qed.

(** X5. The role gate refuses everyone when the list of allowed roles is
    empty, refuses a principal whose role is not a string whatever the
    list, and keeps allowing a principal when roles are added to the list
    on either side. *)
Theorem requireRole_edges (user : AuthenticatedUser) :
  requireRole user [] = Throw (Error "Forbidden: Requires one of roles: ")
  ∧ ((∀ R, role user ≠ JString R) → ∀ allowedRoles, requireRole user allowedRoles ≠ Ok tt)
  ∧ (∀ allowedRoles moreRoles,
       requireRole user allowedRoles = Ok tt →
       requireRole user (allowedRoles ++ moreRoles) = Ok tt
       ∧ requireRole user (moreRoles ++ allowedRoles) = Ok tt).
Proof.
  split; [|split].
  - destruct (requireRole_outcome user []) as [H|H]; [|exact H].
    apply requireRole_Ok in H as (R & _ & HR). by apply elem_of_nil in HR.
  - intros Hrole allowedRoles (R & HR & _)%requireRole_Ok. by apply (Hrole R).
  - intros allowedRoles moreRoles (R & HR & Hin)%requireRole_Ok.
    split; apply requireRole_Ok; exists R; (split; [done|]);
      apply elem_of_app; auto.
Qed.

(** X4. [canManageUsers] is the role gate for admin and manager and
    [canManageRoles] the role gate for admin alone; whoever can manage
    roles can manage users and reach every division, and anyone else
    reaches a division exactly when it is their own. *)
Theorem management_helpers_agree_with_role_gate (user : AuthenticatedUser) :
  (canManageUsers user = true ↔ requireRole user ["admin"; "manager"] = Ok tt)
  ∧ (canManageRoles user = true ↔ requireRole user ["admin"] = Ok tt)
  ∧ (canManageRoles user = true →
     canManageUsers user = true ∧ ∀ divisionId, canAccessDivision user divisionId = true)
  ∧ (role user ≠ JString "admin" →
     ∀ divisionId, canAccessDivision user divisionId = true ↔
                   division_id user = JString divisionId).
Proof.
  unfold canManageUsers, canManageRoles, canAccessDivision, js_strict_eq.
  split; [|split; [|split]].
  - rewrite requireRole_Ok. apply includes_role.
  - rewrite requireRole_Ok, bool_decide_eq_true. split.
    + intros H. exists "admin". split; [done|]. apply list_elem_of_here.
    + intros (R & HR & ->%list_elem_of_singleton). exact HR.
  - intros H%bool_decide_eq_true. split.
    + apply includes_role. exists "admin". split; [done|]. apply list_elem_of_here.
    + intros divisionId. rewrite bool_decide_eq_true_2 by done. reflexivity.
  - intros Hrole divisionId. rewrite bool_decide_eq_false_2 by done.
    apply bool_decide_eq_true.
Qed.

(** X3. Under the jsonwebtoken round trip, a request that bears the token
    [generateToken] issued for [user] is authenticated, and for the
    principal [requireAuth] returns the role gate, [canManageUsers],
    [canManageRoles] and [canAccessDivision] decide as they do for [user],
    but unless [user] is an admin [canCreatePurchaseOrder] allows an
    amount only when it is at most 0, whatever limit [user] has. *)
Theorem token_principal_decisions {Qry Body} (env : Env) (user : AuthenticatedUser)
  (request : FastifyRequest Qry Body) :
  jwt_round_trip env →
  headers_authorization request = Some ("Bearer " +:+ generateToken env user) →
  ∃ principal,
    requireAuth env request = Ok principal
    ∧ (∀ allowedRoles, requireRole principal allowedRoles = requireRole user allowedRoles)
    ∧ canManageUsers principal = canManageUsers user
    ∧ canManageRoles principal = canManageRoles user
    ∧ (∀ divisionId,
         canAccessDivision principal divisionId = canAccessDivision user divisionId)
    ∧ (role user ≠ JString "admin" →
       ∀ totalCents,
         canCreatePurchaseOrder env principal totalCents = true ↔ totalCents ≤ 0).
Proof.
  intros Hjwt Hheader.
  destruct (token_payload_unstamped user) as [Hiat Hexp].
  destruct (Hjwt (token_payload user) Hiat Hexp) as (decoded & Hverify & Hclaims).
  eexists. split.
  { apply requireAuth_Ok. exists (generateToken env user), decoded.
    split; [exact Hheader|]. split; [exact Hverify|reflexivity]. }
  rewrite !Hclaims by done.
  destruct (token_payload_claims user) as (-> & -> & -> & -> & -> & -> & ->).
  unfold requireRole, canManageUsers, canManageRoles, canAccessDivision,
    canCreatePurchaseOrder, js_strict_eq, number_le. simpl.
  repeat split; try done.
  all: rewrite bool_decide_eq_false_2 by done; apply bool_decide_eq_true.
Qed.

(** ** Permission resolution, continued *)

Lemma elem_of_select_permissions (st : Store) (userId name : string) :
  name ∈ select_permissions userId st ↔
  ∃ u ur rp p, resolves st userId u ur rp p ∧ permission_name p = name.
Proof.
  unfold select_permissions. rewrite elem_of_remove_dups.
  apply elem_of_permission_rows.
Qed.

Lemma hasPermission_up (st : Store) (n : nat) (userId permission : string) :
  settled (hasPermission userId permission) {| conn := Up st; draws := n |}
  = Ok (bool_decide (permission ∈ select_permissions userId st)).
Proof. reflexivity. Qed.

(** X6. A user id with no non-deleted user row, or with no non-deleted
    role assignment, resolves to the empty permission list: every
    permission check is false and [requirePermission] throws. *)
Theorem no_live_assignment_no_permission (st : Store) (n : nat)
  (userId permission : string) :
  (∀ u, u ∈ users st → user_id u = userId → user_deleted_at u ≠ None)
  ∨ (∀ ur, ur ∈ user_roles st → ur_user_id ur = userId → ur_deleted_at ur ≠ None) →
  let w := {| conn := Up st; draws := n |} in
  settled (getUserPermissions userId) w = Ok []
  ∧ settled (hasPermission userId permission) w = Ok false
  ∧ settled (requirePermission userId permission) w
    = Throw (Error ("Forbidden: Missing required permission: " +:+ permission)).
Proof.
  intros Hnone w.
  assert (Hempty : select_permissions userId st = []).
  { apply elem_of_nil_inv. intros name Hin.
    apply elem_of_select_permissions in Hin as (u & ur & rp & p & Hres & _).
    destruct Hres as (Hu & Hur & _ & _ & Huid & Hulive & Hurid & Hurlive & _).
    destruct Hnone as [Hnone|Hnone]; [by apply (Hnone u)|by apply (Hnone ur)]. }
  unfold w, settled, requirePermission, hasPermission, getUserPermissions.
  unfold Async.try_catch, Async.bind, Async.select, Async.ret, Async.lift. simpl.
  rewrite Hempty. done.
Qed.

Lemma no_live_assignment_no_permission_witness :
  settled (hasPermission "99999999-9999-4999-8999-999999999999" "pos:approve")
          {| conn := Up (Sample.rbac_store false false); draws := 0 |} = Ok false.
Proof.
  apply (no_live_assignment_no_permission (Sample.rbac_store false false) 0
           "99999999-9999-4999-8999-999999999999" "pos:approve").
  left. intros u Hu%list_elem_of_singleton Hid. subst u. discriminate Hid.
Defined.

(** X7. Permissions are a union: when every user, assignment, grant and
    permission row of one store is also in another, every permission check
    that succeeds in the first succeeds in the second. *)
Theorem permissions_grow_with_rows (st st' : Store) (n n' : nat)
  (userId permission : string) :
  rbac_rows_kept st st' →
  settled (hasPermission userId permission) {| conn := Up st; draws := n |} = Ok true →
  settled (hasPermission userId permission) {| conn := Up st'; draws := n' |} = Ok true.
Proof.
  intros (Hu & Hur & Hrp & Hp). rewrite !hasPermission_up.
  intros [= H%bool_decide_eq_true]. f_equal. apply bool_decide_eq_true.
  apply elem_of_select_permissions in H as (u & ur & rp & p & Hres & Hname).
  apply elem_of_select_permissions. exists u, ur, rp, p. split; [|done].
  destruct Hres as (? & ? & ? & ? & Hrest). unfold resolves. auto 10.
Qed.

Lemma permissions_grow_with_rows_witness :
  let grant := {| rp_role_id := "77777777-7777-4777-8777-777777777777";
                  rp_permission_id := "88888888-8888-4888-8888-888888888889";
                  rp_deleted_at := None |} in
  let st := Sample.rbac_store false false in
  let st' := {| users := users st; roles := roles st;
                permissions := permissions st
                  ++ [{| permission_id := "88888888-8888-4888-8888-888888888889";
                         permission_name := "pos:read";
                         permission_deleted_at := None |}];
                user_roles := user_roles st;
                role_permissions := grant :: role_permissions st;
                suppliers := []; purchase_orders := []; purchase_order_items := [] |} in
  settled (hasPermission "33333333-3333-4333-8333-333333333333" "pos:approve")
          {| conn := Up st'; draws := 0 |} = Ok true.
Proof.
  intros grant st st'.
  apply (permissions_grow_with_rows st st' 0 0).
  - unfold rbac_rows_kept. split; [done|]. split; [done|]. split.
    + intros x Hx. apply list_elem_of_further, Hx.
    + intros x Hx. apply elem_of_app. left. exact Hx.
  - vm_compute. reflexivity.
Defined.

(** ** The lifecycle as a whole *)

Lemma transition_raises_rank (current requested : string) :
  transition_allowed current requested = Ok true →
  (lifecycle_rank current < lifecycle_rank requested ≤ 4)%nat.
Proof.
  intros H%transition_allowed_edge. revert H. unfold canonical_edges.
  rewrite !elem_of_cons, elem_of_nil. intros H.
  repeat (destruct H as [Heq|H]; [injection Heq as -> ->; vm_compute; lia|]).
  destruct H.
Qed.

Lemma legal_chain_cons (a b : string) (rest : list string) :
  legal_chain (a :: b :: rest) = true →
  transition_allowed a b = Ok true ∧ legal_chain (b :: rest) = true.
Proof.
  cbn [legal_chain]. destruct (transition_allowed a b) as [[]|]; [done|discriminate..].
Qed.

Lemma legal_chain_ranks (a : string) (rest : list string) :
  legal_chain (a :: rest) = true →
  (length rest + lifecycle_rank a ≤ 4)%nat
  ∧ ∀ x, x ∈ rest → (lifecycle_rank a < lifecycle_rank x)%nat.
Proof.
  revert a. induction rest as [|b rest IH]; intros a H.
  - split; [|intros x Hx; by apply elem_of_nil in Hx].
    simpl. unfold lifecycle_rank. repeat case_bool_decide; lia.
  - apply legal_chain_cons in H as [Hstep Hrest].
    apply transition_raises_rank in Hstep. destruct (IH b Hrest) as [Hlen Hlater].
    split; [simpl; lia|]. intros x [->|Hx]%elem_of_cons; [lia|].
    specialize (Hlater x Hx). lia.
Qed.

(** X8. Every history of statuses in which each step passes the
    transition check visits no status twice and has at most five
    statuses; after [received] or [cancelled] nothing follows. *)
Theorem legal_chain_bounded (statuses : list string) :
  legal_chain statuses = true →
  NoDup statuses ∧ (length statuses ≤ 5)%nat
  ∧ (∀ a rest, statuses = a :: rest → a = "received" ∨ a = "cancelled" → rest = []).
Proof.
  intros H. split; [|split].
  - induction statuses as [|a rest IH]; [constructor|].
    destruct (legal_chain_ranks a rest H) as [_ Hlater].
    constructor.
    + intros Hin. specialize (Hlater a Hin). lia.
    + apply IH. destruct rest as [|b rest]; [done|].
      by apply legal_chain_cons in H as [_ H].
  - destruct statuses as [|a rest]; [simpl; lia|].
    destruct (legal_chain_ranks a rest H) as [Hlen _]. simpl. lia.
  - intros a rest -> Hterminal.
    destruct (legal_chain_ranks a rest H) as [Hlen _].
    destruct rest; [done|].
    destruct Hterminal as [-> | ->];
      [change (lifecycle_rank "received") with 4%nat in Hlen
      |change (lifecycle_rank "cancelled") with 4%nat in Hlen];
      simpl in Hlen; lia.
Qed.

Lemma legal_chain_bounded_witness :
  NoDup ["draft"; "pending"; "approved"; "ordered"; "received"]
  ∧ legal_chain ["draft"; "pending"; "approved"; "ordered"; "received"; "cancelled"] = false.
Proof.
  split.
  - apply (legal_chain_bounded ["draft"; "pending"; "approved"; "ordered"; "received"]).
    reflexivity.
  - reflexivity.
Defined.

(** ** Status updates *)

(** Every run of the status handler: either it replies without writing, or
    all five gates passed and the one [UPDATE] ran. *)
Lemma status_update_run {Qry} (env : Env) (request : FastifyRequest Qry StatusBody)
  (w : World) :
  (∃ reply, update_purchase_order_status env request w = (Ok reply, w)
            ∧ statusCode reply ≠ 200)
  ∨ (∃ st user current,
        conn w = Up st
        ∧ requireAuth env request = Ok user
        ∧ requireRole user ["admin"; "manager"] = Ok tt
        ∧ isValidUUID (params_id request) = true
        ∧ select_current_status (params_id request) st = Some current
        ∧ (current, status (body request)) ∈ canonical_edges
        ∧ update_purchase_order_status env request w
          = (Ok (send 200 (MessagePayload ("Purchase order status updated to "
                                           +:+ status (body request)))),
             {| conn := Up (update_status (params_id request)
                              (status (body request),
                               {| updated_at := clock env (draws w);
                                  updated_by := js_or (id user) (JString "system") |})
                              st);
                draws := S (draws w) |})).
Proof.
  destruct w as [c n].
  unfold update_purchase_order_status, validate_status_update, apply_status_update,
    status_update_failed, withUpdateAudit.
  unfold Async.try_catch, Async.bind, Async.lift, Async.select, Async.execute,
    Async.draw, Async.ret. simpl.
  destruct (requireAuth env request) as [user|e] eqn:Hauth; [|left; eexists; done].
  destruct (requireRole user ["admin"; "manager"]) as [[]|e] eqn:Hrole;
    [|left; eexists; done].
  destruct (isValidUUID (params_id request)) eqn:Huuid; simpl;
    [|left; eexists; done].
  destruct c as [|st]; [left; eexists; done|].
  destruct (select_current_status (params_id request) st) as [current|] eqn:Hcurrent;
    [|left; eexists; done].
  destruct (transition_allowed current (status (body request))) as [[]|e] eqn:Hallowed;
    simpl; [|left; eexists; done|left; eexists; done].
  right. exists st, user, current. apply transition_allowed_edge in Hallowed. done.
Qed.

Lemma update_status_fixed_columns (poId newStatus : string) (audit : UpdateAudit)
  (st : Store) :
  fixed_columns <$> purchase_orders (update_status poId (newStatus, audit) st)
  = fixed_columns <$> purchase_orders st.
Proof.
  unfold update_status, with_purchase_orders. simpl.
  rewrite <- list_fmap_compose. apply list_fmap_ext. intros i po _. simpl.
  unfold overwrite. case_bool_decide; reflexivity.
Qed.

Lemma update_status_other_rows (poId newStatus : string) (audit : UpdateAudit)
  (st : Store) (po : PurchaseOrderRow) :
  po_id po ≠ poId →
  po ∈ purchase_orders (update_status poId (newStatus, audit) st) ↔ po ∈ purchase_orders st.
Proof.
  intros Hid. unfold update_status, with_purchase_orders. simpl.
  rewrite list_elem_of_fmap. unfold overwrite. split.
  - intros (po' & -> & Hin). case_bool_decide as Hpo; [|done].
    exfalso. apply Hid. exact Hpo.
  - intros Hin. exists po. rewrite bool_decide_eq_false_2 by done. done.
Qed.

(** X13. Whatever the request, the status handler leaves every table
    but [purchase_orders] as it was, adds and removes no order, changes no
    column of an order other than status, [updated_at] and [updated_by],
    and leaves every order with another id untouched. *)
Theorem status_update_touches_one_order {Qry} (env : Env)
  (request : FastifyRequest Qry StatusBody) (st : Store) (n : nat) :
  ∃ st',
    conn (world_after (update_purchase_order_status env request)
                      {| conn := Up st; draws := n |}) = Up st'
    ∧ users st' = users st ∧ roles st' = roles st ∧ permissions st' = permissions st
    ∧ user_roles st' = user_roles st ∧ role_permissions st' = role_permissions st
    ∧ suppliers st' = suppliers st
    ∧ purchase_order_items st' = purchase_order_items st
    ∧ fixed_columns <$> purchase_orders st' = fixed_columns <$> purchase_orders st
    ∧ live_numbers st' = live_numbers st
    ∧ (∀ po, po_id po ≠ params_id request →
             po ∈ purchase_orders st' ↔ po ∈ purchase_orders st).
Proof.
  unfold world_after.
  destruct (status_update_run env request {| conn := Up st; draws := n |})
    as [(reply & -> & _)|(st0 & user & current & [= <-] & _ & _ & _ & _ & _ & ->)]; simpl.
  - exists st. done.
  - eexists. split; [reflexivity|]. repeat split; try reflexivity.
    + apply update_status_fixed_columns.
    + unfold live_numbers, update_status, with_purchase_orders. simpl.
      induction (purchase_orders st) as [|po rows IH]; [reflexivity|].
      rewrite fmap_cons, !filter_cons.
      assert (Hdel : po_deleted_at (overwrite (params_id request) (status (body request))
                {| updated_at := clock env n;
                   updated_by := js_or (id user) (JString "system") |} po)
              = po_deleted_at po)
        by (unfold overwrite; case_bool_decide; reflexivity).
      assert (Hnum : po_number (overwrite (params_id request) (status (body request))
                {| updated_at := clock env n;
                   updated_by := js_or (id user) (JString "system") |} po)
              = po_number po)
        by (unfold overwrite; case_bool_decide; reflexivity).
      rewrite Hdel. destruct (decide (po_deleted_at po = None)); [|exact IH].
      rewrite !fmap_cons, Hnum, IH. reflexivity.
    + apply update_status_other_rows; done.
    + apply update_status_other_rows; done.
Qed.

(** Every run of the first half of the status handler: either it has its
    reply, which is not a success, or all five gates passed. *)
Lemma status_update_reads_run {Qry} (env : Env) (request : FastifyRequest Qry StatusBody)
  (w : World) :
  (∃ reply, status_update_reads env request w = (Ok (inl reply), w)
            ∧ statusCode reply ≠ 200)
  ∨ (∃ st user current,
        conn w = Up st
        ∧ requireAuth env request = Ok user
        ∧ requireRole user ["admin"; "manager"] = Ok tt
        ∧ isValidUUID (params_id request) = true
        ∧ select_current_status (params_id request) st = Some current
        ∧ (current, status (body request)) ∈ canonical_edges
        ∧ status_update_reads env request w
          = (Ok (inr {| pending_id := params_id request;
                        pending_status := status (body request);
                        pending_user := user |}), w)).
Proof.
  destruct w as [c n].
  unfold status_update_reads, validate_status_update, status_update_failed.
  unfold Async.try_catch, Async.bind, Async.lift, Async.select, Async.ret. simpl.
  destruct (requireAuth env request) as [user|e] eqn:Hauth; [|left; eexists; done].
  destruct (requireRole user ["admin"; "manager"]) as [[]|e] eqn:Hrole;
    [|left; eexists; done].
  destruct (isValidUUID (params_id request)) eqn:Huuid; simpl;
    [|left; eexists; done].
  destruct c as [|st]; [left; eexists; done|].
  destruct (select_current_status (params_id request) st) as [current|] eqn:Hcurrent;
    [|left; eexists; done].
  destruct (transition_allowed current (status (body request))) as [[]|e] eqn:Hallowed;
    simpl; [|left; eexists; done|left; eexists; done].
  right. exists st, user, current. apply transition_allowed_edge in Hallowed. done.
Qed.

(** X9. A success reply of [PATCH /:id/status] is earned: when the
    handler answers 200, the caller was authenticated with the role admin
    or manager, the id is a UUID, the order was found live when its status
    was read, and the transition from the status read to the requested one
    is an edge of the canonical table; the [UPDATE] then ran on the
    database as it was at that moment, whatever had happened to it since
    the read, and left the order, if still live, in the requested status. *)
Theorem status_update_success_sound {Qry} (env : Env)
  (request : FastifyRequest Qry StatusBody) (w1 w1' w2 w2' : World)
  (checked : Reply + PendingUpdate) (reply : Reply) :
  status_update_reads env request w1 = (Ok checked, w1') →
  status_update_writes env checked w2 = (Ok reply, w2') →
  statusCode reply = 200 →
  ∃ st1 user current st2,
    conn w1 = Up st1
    ∧ requireAuth env request = Ok user
    ∧ requireRole user ["admin"; "manager"] = Ok tt
    ∧ isValidUUID (params_id request) = true
    ∧ select_current_status (params_id request) st1 = Some current
    ∧ (current, status (body request)) ∈ canonical_edges
    ∧ w1' = w1
    ∧ conn w2 = Up st2
    ∧ conn w2'
      = Up (update_status (params_id request)
              (status (body request),
               {| updated_at := clock env (draws w2);
                  updated_by := js_or (id user) (JString "system") |})
              st2)
    ∧ ∀ st2', conn w2' = Up st2' →
        select_current_status (params_id request) st2'
        = (λ _, status (body request)) <$> select_current_status (params_id request) st2.
Proof.
  intros Hreads Hwrites Hcode.
  destruct (status_update_reads_run env request w1)
    as [(early & Hearly & Hnot)|(st1 & user & current & Hconn & Hauth & Hrole & Huuid
                                 & Hcurrent & Hedge & Hpass)].
  { rewrite Hearly in Hreads. injection Hreads as <- <-.
    simpl in Hwrites. unfold Async.ret in Hwrites. injection Hwrites as <- <-.
    done. }
  rewrite Hpass in Hreads. injection Hreads as <- <-.
  destruct w2 as [[|st2] n2].
  { simpl in Hwrites. unfold apply_status_update, status_update_failed, withUpdateAudit,
      Async.try_catch, Async.bind, Async.execute, Async.draw, Async.ret in Hwrites.
    simpl in Hwrites. injection Hwrites as <- <-. done. }
  simpl in Hwrites. unfold apply_status_update, status_update_failed, withUpdateAudit,
    Async.try_catch, Async.bind, Async.execute, Async.draw, Async.ret in Hwrites.
  simpl in Hwrites. injection Hwrites as <- <-.
  exists st1, user, current, st2. do 8 (split; [done|]). split; [reflexivity|].
  intros st2' Hafter. simpl in Hafter. injection Hafter as <-.
  apply update_status_unconditional.
Qed.

Lemma select_current_status_None (poId : string) (st : Store) :
  select_current_status poId st = None ↔
  ∀ po, po ∈ purchase_orders st → po_id po = poId → po_deleted_at po ≠ None.
Proof.
  unfold select_current_status. split.
  - intros H po Hin Hid Hlive.
    assert (Hf : po ∈ filter (λ po, po_id po = poId ∧ po_deleted_at po = None)
                             (purchase_orders st))
      by (apply list_elem_of_filter; done).
    destruct (filter _ (purchase_orders st)); [by apply elem_of_nil in Hf|discriminate].
  - intros H.
    destruct (filter _ (purchase_orders st)) as [|po rows] eqn:E; [reflexivity|].
    assert (Hf : po ∈ filter (λ po, po_id po = poId ∧ po_deleted_at po = None)
                             (purchase_orders st))
      by (rewrite E; apply list_elem_of_here).
    apply list_elem_of_filter in Hf as [[Hid Hlive] Hin]. by destruct (H po Hin Hid).
Qed.

(** X10. For an authorized caller and a well-formed id, an order that
    does not exist and an order that is soft-deleted get the same 404
    [Purchase order not found], and nothing is written. *)
Theorem status_update_not_found {Qry} (env : Env)
  (request : FastifyRequest Qry StatusBody) (st : Store) (n : nat)
  (user : AuthenticatedUser) :
  requireAuth env request = Ok user →
  requireRole user ["admin"; "manager"] = Ok tt →
  isValidUUID (params_id request) = true →
  (∀ po, po ∈ purchase_orders st → po_id po = params_id request →
         po_deleted_at po ≠ None) →
  update_purchase_order_status env request {| conn := Up st; draws := n |}
  = (Ok (send 404 (ErrorPayload "Purchase order not found")),
     {| conn := Up st; draws := n |}).
Proof.
  intros Hauth Hrole Huuid Hnone%select_current_status_None. run_status_update.
  rewrite Hauth, Hrole, Huuid. cbn -[select_current_status]. by rewrite Hnone.
Qed.

(** X11. An order whose stored status is not one of the six keys of the
    transition table cannot be moved: whatever status an authorized
    caller asks for, the reply is the generic 500 and nothing is written. *)
Theorem status_update_unknown_stored_status {Qry} (env : Env)
  (request : FastifyRequest Qry StatusBody) (st : Store) (n : nat)
  (user : AuthenticatedUser) (current : string) :
  requireAuth env request = Ok user →
  requireRole user ["admin"; "manager"] = Ok tt →
  isValidUUID (params_id request) = true →
  select_current_status (params_id request) st = Some current →
  current ∉ status_enum →
  update_purchase_order_status env request {| conn := Up st; draws := n |}
  = (Ok (send 500 (ErrorPayload "Failed to update purchase order status")),
     {| conn := Up st; draws := n |}).
Proof.
  intros Hauth Hrole Huuid Hcurrent Hunknown.
  destruct (transition_allowed_unknown current (status (body request)) Hunknown)
    as [e He].
  run_status_update. rewrite Hauth, Hrole, Huuid.
  cbn -[select_current_status transition_allowed]. by rewrite Hcurrent, He.
Qed.

Lemma canonical_edge_target (current requested : string) :
  (current, requested) ∈ canonical_edges →
  requested ∈ status_enum ∧ (requested, requested) ∉ canonical_edges.
Proof.
  unfold canonical_edges. rewrite !elem_of_cons, elem_of_nil. intros H.
  repeat (destruct H as [Heq|H];
          [injection Heq as -> ->;
           split; apply (bool_decide_unpack _); vm_compute; exact I|]).
  destruct H.
Qed.

(** X12. A status update is not idempotent: after a transition to a
    status succeeds, the same request sent again is refused with 400
    [Invalid status transition from s to s] and writes nothing. *)
Theorem status_update_then_repeat {Qry} (env : Env)
  (request : FastifyRequest Qry StatusBody) (st : Store) (n : nat)
  (user : AuthenticatedUser) (current : string) :
  requireAuth env request = Ok user →
  requireRole user ["admin"; "manager"] = Ok tt →
  isValidUUID (params_id request) = true →
  select_current_status (params_id request) st = Some current →
  (current, status (body request)) ∈ canonical_edges →
  ∃ w1,
    update_purchase_order_status env request {| conn := Up st; draws := n |}
    = (Ok (send 200 (MessagePayload ("Purchase order status updated to "
                                     +:+ status (body request)))), w1)
    ∧ update_purchase_order_status env request w1
      = (Ok (send 400 (ErrorPayload ("Invalid status transition from "
                                     +:+ status (body request) +:+ " to "
                                     +:+ status (body request)))), w1).
Proof.
  intros Hauth Hrole Huuid Hcurrent Hedge.
  destruct (canonical_edge_target _ _ Hedge) as [Henum Hself].
  apply transition_allowed_edge in Hedge.
  eexists. split.
  - run_status_update. rewrite Hauth, Hrole, Huuid.
    cbn -[select_current_status transition_allowed update_status].
    rewrite Hcurrent, Hedge. reflexivity.
  - apply (status_update_rejects_off_table env request _ _ user (status (body request)));
      try done.
    cbn [pending_id pending_status pending_user].
    rewrite update_status_unconditional. cbn [pending_id pending_status pending_user].
    rewrite Hcurrent. reflexivity.
Qed.

(** ** Creating purchase orders, continued *)

Lemma with_purchase_order_items_app (rows more : list PurchaseOrderItemRow) (st : Store) :
  with_purchase_order_items (λ l, l ++ more) (with_purchase_order_items (λ l, l ++ rows) st)
  = with_purchase_order_items (λ l, l ++ rows ++ more) st.
Proof. unfold with_purchase_order_items. simpl. by rewrite <- app_assoc. Qed.

Lemma with_purchase_order_items_nil (st : Store) :
  with_purchase_order_items (λ l, l ++ []) st = st.
Proof. destruct st. unfold with_purchase_order_items. simpl. by rewrite app_nil_r. Qed.

Lemma create_items_run (env : Env) (user : AuthenticatedUser) (newPO : PurchaseOrderRow)
  (items : list ItemData) (st : Store) (n : nat) :
  Async.for_each (create_item env user newPO) items {| conn := Up st; draws := n |}
  = (Ok (item_rows env user newPO n items),
     {| conn := Up (with_purchase_order_items
                      (λ l, l ++ item_rows env user newPO n items) st);
        draws := n + length items |}).
Proof.
  revert st n. induction items as [|item items IH]; intros st n.
  - unfold item_rows. simpl. unfold Async.ret.
    by rewrite with_purchase_order_items_nil, Nat.add_0_r.
  - simpl. unfold Async.bind at 1. unfold create_item at 1.
    unfold withCreateAudit, Async.bind, Async.draw, Async.execute, Async.ret. simpl.
    rewrite IH. unfold insert_purchase_order_item.
    rewrite with_purchase_order_items_app.
    assert (Hrows : item_rows env user newPO n (item :: items)
                    = purchase_order_item_row (po_id newPO)
                        (item, create_audit env (id user) n)
                      :: item_rows env user newPO (S n) items).
    { unfold item_rows. rewrite imap_cons, Nat.add_0_r. f_equal.
      apply imap_ext. intros i x _. simpl. by rewrite Nat.add_succ_r. }
    rewrite Hrows. do 2 f_equal. simpl. by rewrite Nat.add_succ_r.
Qed.

(** Every run of the create handler on a reachable database: either it
    replies without writing, or every gate passed and the order and its
    items were inserted. *)
Lemma create_run {Qry} (env : Env) (request : FastifyRequest Qry CreateBody)
  (st : Store) (n : nat) :
  let w := {| conn := Up st; draws := n |} in
  (∃ reply, create_purchase_order env request w = (Ok reply, w)
            ∧ statusCode reply ≠ 201)
  ∨ (∃ user data,
        requireAuth env request = Ok user
        ∧ requireRole user ["admin"; "manager"] = Ok tt
        ∧ createPurchaseOrderSchema_parse env (body request) = Ok data
        ∧ select_purchase_order_by_number (data_po_number data) st = None
        ∧ is_Some (select_supplier (data_supplier_id data) st)
        ∧ create_purchase_order env request w
          = (Ok (send 201 (PurchaseOrderPayload
                             (new_order env user data n)
                             (item_rows env user (new_order env user data n) (S n)
                                        (data_items data)))),
             {| conn := Up (with_purchase_order_items
                              (λ l, l ++ item_rows env user (new_order env user data n)
                                                   (S n) (data_items data))
                              (insert_purchase_order (new_order env user data n) st));
                draws := S n + length (data_items data) |})).
Proof.
  intros w. unfold w, create_purchase_order, withCreateAudit.
  unfold Async.try_catch, Async.bind, Async.lift, Async.select, Async.execute,
    Async.draw, Async.ret.
  destruct (requireAuth env request) as [user|e] eqn:Hauth.
  2: { left. destruct e; eexists; split; done. }
  destruct (requireRole user ["admin"; "manager"]) as [[]|e] eqn:Hrole.
  2: { left. destruct e; eexists; split; done. }
  destruct (createPurchaseOrderSchema_parse env (body request)) as [data|e] eqn:Hparse.
  2: { left. destruct e; eexists; split; done. }
  cbn [conn draws].
  case_bool_decide as Hexisting; [left; eexists; split; done|].
  cbn [conn draws].
  case_bool_decide as Hsupplier; cbn [negb]; [|left; eexists; split; done].
  right. exists user, data. repeat (split; [done|]).
  split; [by destruct (select_purchase_order_by_number _ st); [destruct Hexisting|]|].
  split; [done|].
  cbn [conn draws].
  fold (create_audit env (id user) n). fold (new_order env user data n).
  rewrite create_items_run. reflexivity.
Qed.

Lemma select_by_number_None (number : string) (st : Store) :
  select_purchase_order_by_number number st = None → number ∉ live_numbers st.
Proof.
  unfold select_purchase_order_by_number, live_numbers.
  intros H (po & -> & [Hlive Hin]%list_elem_of_filter)%list_elem_of_fmap.
  assert (Hf : po ∈ filter (λ po', po_number po' = po_number po ∧ po_deleted_at po' = None)
                           (purchase_orders st))
    by (apply list_elem_of_filter; done).
  destruct (filter _ (purchase_orders st)); [by apply elem_of_nil in Hf|discriminate].
Qed.

Lemma live_numbers_created (env : Env) (user : AuthenticatedUser) (data : CreateData)
  (n : nat) (rows : list PurchaseOrderItemRow) (st : Store) :
  live_numbers (with_purchase_order_items (λ l, l ++ rows)
                  (insert_purchase_order (new_order env user data n) st))
  = live_numbers st ++ [data_po_number data].
Proof.
  unfold live_numbers. simpl. rewrite filter_app, fmap_app. f_equal.
Qed.

Lemma select_supplier_None (sid : string) (st : Store) :
  (∀ s, s ∈ suppliers st → supplier_id s = sid → supplier_deleted_at s ≠ None) →
  select_supplier sid st = None.
Proof.
  intros H. unfold select_supplier.
  destruct (filter _ (suppliers st)) as [|s rows] eqn:E; [reflexivity|].
  assert (Hf : s ∈ filter (λ s, supplier_id s = sid ∧ supplier_deleted_at s = None)
                          (suppliers st))
    by (rewrite E; apply list_elem_of_here).
  apply list_elem_of_filter in Hf as [[Hid Hlive] Hin]. by destruct (H s Hin Hid).
Qed.

(** X15. A valid create request by an authorized caller for a free
    number whose supplier does not exist or is soft-deleted is answered
    with 400 [Supplier not found], and nothing is written. *)
Theorem create_requires_live_supplier {Qry} (env : Env)
  (request : FastifyRequest Qry CreateBody) (st : Store) (n : nat)
  (user : AuthenticatedUser) (data : CreateData) :
  requireAuth env request = Ok user →
  requireRole user ["admin"; "manager"] = Ok tt →
  createPurchaseOrderSchema_parse env (body request) = Ok data →
  data_po_number data ∉ live_numbers st →
  (∀ s, s ∈ suppliers st → supplier_id s = data_supplier_id data →
        supplier_deleted_at s ≠ None) →
  create_purchase_order env request {| conn := Up st; draws := n |}
  = (Ok (send 400 (ErrorPayload "Supplier not found")), {| conn := Up st; draws := n |}).
Proof.
  intros Hauth Hrole Hparse Hfree Hsupplier%select_supplier_None.
  assert (Hnone : select_purchase_order_by_number (data_po_number data) st = None).
  { unfold select_purchase_order_by_number.
    destruct (filter _ (purchase_orders st)) as [|po rows] eqn:E; [reflexivity|].
    exfalso. apply Hfree.
    assert (Hf : po ∈ filter (λ po, po_number po = data_po_number data
                                    ∧ po_deleted_at po = None) (purchase_orders st))
      by (rewrite E; apply list_elem_of_here).
    apply list_elem_of_filter in Hf as [[Hnum Hlive] Hin].
    unfold live_numbers. apply list_elem_of_fmap. exists po. split; [done|].
    apply list_elem_of_filter. done. }
  unfold create_purchase_order.
  unfold Async.try_catch, Async.bind, Async.lift, Async.select, Async.ret.
  rewrite Hauth, Hrole, Hparse. cbn [conn draws]. rewrite Hnone.
  rewrite bool_decide_eq_false_2 by apply is_Some_None.
  cbn [conn draws]. rewrite Hsupplier. reflexivity.
Qed.

(** ** Racing creations *)

(** The handler is its two halves in sequence. *)
Lemma create_splits {Qry} (env : Env) (request : FastifyRequest Qry CreateBody)
  (w : World) :
  create_purchase_order env request w
  = (let* checked := create_reads env request in create_writes env checked) w.
Proof.
  unfold create_purchase_order, create_reads, create_writes, validate_create,
    apply_create, create_failed.
  unfold Async.try_catch, Async.bind, Async.lift, Async.select, Async.ret.
  destruct (requireAuth env request) as [user|[]]; [|reflexivity..].
  destruct (requireRole user ["admin"; "manager"]) as [[]|[]]; [|reflexivity..].
  destruct (createPurchaseOrderSchema_parse env (body request)) as [data|[]];
    [|reflexivity..].
  destruct (conn w) as [|st]; [reflexivity|].
  case_bool_decide; [reflexivity|].
  destruct (conn w) as [|st']; [reflexivity|].
  case_bool_decide; reflexivity.
Qed.

(** Every run of the first half of the create handler: either it has its
    reply, which is not a success, or every gate passed. *)
Lemma create_reads_run {Qry} (env : Env) (request : FastifyRequest Qry CreateBody)
  (w : World) :
  (∃ reply, create_reads env request w = (Ok (inl reply), w) ∧ statusCode reply ≠ 201)
  ∨ (∃ st user data,
        conn w = Up st
        ∧ requireAuth env request = Ok user
        ∧ requireRole user ["admin"; "manager"] = Ok tt
        ∧ createPurchaseOrderSchema_parse env (body request) = Ok data
        ∧ select_purchase_order_by_number (data_po_number data) st = None
        ∧ is_Some (select_supplier (data_supplier_id data) st)
        ∧ create_reads env request w
          = (Ok (inr {| pending_creator := user; pending_data := data |}), w)).
Proof.
  unfold create_reads, validate_create, create_failed.
  unfold Async.try_catch, Async.bind, Async.lift, Async.select, Async.ret.
  destruct (requireAuth env request) as [user|e] eqn:Hauth.
  2: { left. destruct e; eexists; split; done. }
  destruct (requireRole user ["admin"; "manager"]) as [[]|e] eqn:Hrole.
  2: { left. destruct e; eexists; split; done. }
  destruct (createPurchaseOrderSchema_parse env (body request)) as [data|e] eqn:Hparse.
  2: { left. destruct e; eexists; split; done. }
  destruct (conn w) as [|st] eqn:Hconn; [left; eexists; split; done|].
  case_bool_decide as Hexisting; [left; eexists; split; done|].
  rewrite Hconn.
  case_bool_decide as Hsupplier; cbn [negb]; [|left; eexists; split; done].
  right. exists st, user, data. repeat (split; [done|]).
  split; [by destruct (select_purchase_order_by_number _ st); [destruct Hexisting|]|].
  done.
Qed.

(** The second half of the create handler on a reachable database. *)
Lemma create_writes_run (env : Env) (p : PendingCreate) (st : Store) (n : nat) :
  let newPO := new_order env (pending_creator p) (pending_data p) n in
  let items := item_rows env (pending_creator p) newPO (S n)
                         (data_items (pending_data p)) in
  create_writes env (inr p) {| conn := Up st; draws := n |}
  = (Ok (send 201 (PurchaseOrderPayload newPO items)),
     {| conn := Up (with_purchase_order_items (λ l, l ++ items)
                      (insert_purchase_order newPO st));
        draws := S n + length (data_items (pending_data p)) |}).
Proof.
  intros newPO items. unfold items, newPO, create_writes, apply_create, withCreateAudit.
  unfold Async.try_catch, Async.bind, Async.execute, Async.draw, Async.ret.
  cbn [conn draws].
  fold (create_audit env (id (pending_creator p)) n).
  fold (new_order env (pending_creator p) (pending_data p) n).
  rewrite create_items_run. reflexivity.
Qed.

(** With the database down the second half has no 201 of its own. *)
Lemma create_writes_down (env : Env) (checked : Reply + PendingCreate) (n : nat)
  (reply : Reply) (w' : World) :
  create_writes env checked {| conn := Down; draws := n |} = (Ok reply, w') →
  statusCode reply = 201 → ∃ early, checked = inl early.
Proof.
  destruct checked as [early|p]; [eauto|].
  unfold create_writes, apply_create, create_failed, withCreateAudit.
  unfold Async.try_catch, Async.bind, Async.execute, Async.draw, Async.ret.
  cbn [conn draws]. intros [= <- <-]. discriminate.
Qed.

Lemma select_by_number_free (number : string) (st : Store) :
  number ∉ live_numbers st → select_purchase_order_by_number number st = None.
Proof.
  unfold select_purchase_order_by_number, live_numbers. intros Hfree.
  destruct (filter (λ po, po_number po = number ∧ po_deleted_at po = None)
                   (purchase_orders st)) as [|po rows] eqn:E; [reflexivity|].
  assert (Hf : po ∈ filter (λ po, po_number po = number ∧ po_deleted_at po = None)
                           (purchase_orders st))
    by (rewrite E; apply list_elem_of_here).
  apply list_elem_of_filter in Hf as [[Hnumber Hlive] Hin].
  destruct Hfree. apply list_elem_of_fmap. exists po. split; [done|].
  by apply list_elem_of_filter.
Qed.

Lemma create_reads_pass {Qry} (env : Env) (request : FastifyRequest Qry CreateBody)
  (st : Store) (n : nat) (user : AuthenticatedUser) (data : CreateData) :
  requireAuth env request = Ok user →
  requireRole user ["admin"; "manager"] = Ok tt →
  createPurchaseOrderSchema_parse env (body request) = Ok data →
  data_po_number data ∉ live_numbers st →
  is_Some (select_supplier (data_supplier_id data) st) →
  create_reads env request {| conn := Up st; draws := n |}
  = (Ok (inr {| pending_creator := user; pending_data := data |}),
     {| conn := Up st; draws := n |}).
Proof.
  intros Hauth Hrole Hparse Hfree%select_by_number_free Hsupplier.
  unfold create_reads, validate_create.
  unfold Async.try_catch, Async.bind, Async.lift, Async.select, Async.ret.
  rewrite Hauth, Hrole, Hparse. cbn [conn draws]. rewrite Hfree.
  rewrite bool_decide_eq_false_2 by (intros []; discriminate).
  cbn [conn draws]. rewrite bool_decide_eq_true_2 by done. reflexivity.
Qed.

(** X14. The uniqueness of purchase-order numbers among non-deleted
    orders rests on the handler's own [SELECT] alone. A request handled
    with no other request between its [SELECT] and its [INSERT] keeps the
    numbers unique, whatever it asks. Two authorized, valid requests for
    the same free number that both read before either writes are both
    answered with 201, and the number is stored twice. *)
Theorem create_keeps_numbers_unique {Qry} (env : Env)
  (first second : FastifyRequest Qry CreateBody) (st : Store) (n : nat) :
  let w := {| conn := Up st; draws := n |} in
  (NoDup (live_numbers st) →
   ∃ st', conn (world_after (create_purchase_order env first) w) = Up st'
          ∧ NoDup (live_numbers st'))
  ∧ (∀ user1 user2 data1 data2,
       requireAuth env first = Ok user1 →
       requireRole user1 ["admin"; "manager"] = Ok tt →
       createPurchaseOrderSchema_parse env (body first) = Ok data1 →
       requireAuth env second = Ok user2 →
       requireRole user2 ["admin"; "manager"] = Ok tt →
       createPurchaseOrderSchema_parse env (body second) = Ok data2 →
       data_po_number data2 = data_po_number data1 →
       data_po_number data1 ∉ live_numbers st →
       is_Some (select_supplier (data_supplier_id data1) st) →
       is_Some (select_supplier (data_supplier_id data2) st) →
       ∃ reply1 reply2 st',
         settled (racing_creates env first second) w = Ok (reply1, reply2)
         ∧ statusCode reply1 = 201
         ∧ statusCode reply2 = 201
         ∧ conn (world_after (racing_creates env first second) w) = Up st'
         ∧ live_numbers st'
           = live_numbers st ++ [data_po_number data1; data_po_number data1]
         ∧ ¬ NoDup (live_numbers st')).
Proof.
  intros w. split.
  - intros Hunique. unfold world_after, w.
    destruct (create_run env first st n)
      as [(reply & -> & _)|(user & data & _ & _ & _ & Hfree & _ & ->)]; simpl.
    + exists st. done.
    + eexists. split; [reflexivity|]. rewrite live_numbers_created.
      apply NoDup_app. split; [done|]. split; [|apply NoDup_singleton].
      intros number Hin ->%list_elem_of_singleton.
      by apply select_by_number_None in Hfree.
  - intros user1 user2 data1 data2 Hauth1 Hrole1 Hparse1 Hauth2 Hrole2 Hparse2
      Hsame Hfree Hsupplier1 Hsupplier2.
    assert (Hrun : ∃ reply1 reply2 st' n',
      racing_creates env first second w
      = (Ok (reply1, reply2), {| conn := Up st'; draws := n' |})
      ∧ statusCode reply1 = 201 ∧ statusCode reply2 = 201
      ∧ live_numbers st'
        = live_numbers st ++ [data_po_number data1; data_po_number data1]).
    { unfold racing_creates, w.
      unfold Async.bind at 1.
      rewrite (create_reads_pass env first st n user1 data1) by done.
      unfold Async.bind at 1.
      rewrite (create_reads_pass env second st n user2 data2)
        by (rewrite ?Hsame; done).
      unfold Async.bind at 1. rewrite create_writes_run.
      unfold Async.bind at 1. rewrite create_writes_run.
      unfold Async.ret. do 4 eexists. split; [reflexivity|].
      split; [reflexivity|]. split; [reflexivity|].
      cbn [pending_creator pending_data].
      rewrite !live_numbers_created, Hsame, <- app_assoc. reflexivity. }
    destruct Hrun as (reply1 & reply2 & st' & n' & Hrun & Hcode1 & Hcode2 & Hnumbers).
    exists reply1, reply2, st'. unfold settled, world_after. rewrite Hrun. simpl.
    do 5 (split; [done|]).
    rewrite Hnumbers. intros Hdup. apply NoDup_app in Hdup as (_ & _ & Hdup).
    apply NoDup_cons in Hdup as [Hnotin _]. apply Hnotin, list_elem_of_here.
Qed.

Lemma parse_no_issues (env : Env) (b : CreateBody) (data : CreateData) :
  createPurchaseOrderSchema_parse env b = Ok data → schema_issues env b = [].
Proof.
  unfold createPurchaseOrderSchema_parse.
  destruct (schema_issues env b); [reflexivity|discriminate].
Qed.

(** X16. A 201 of [POST /] is earned: when the handler answers 201, the
    caller was authenticated with the role admin or manager, the body
    raised no schema issue, and when the handler read the database no
    live order carried the number and the supplier was live; the order it
    then inserted, on the database as it was at that moment, carries the
    number and the status of the parsed body and is the order of the
    reply. *)
Theorem create_success_sound {Qry} (env : Env)
  (request : FastifyRequest Qry CreateBody) (w1 w1' w2 w2' : World)
  (checked : Reply + PendingCreate) (reply : Reply) :
  create_reads env request w1 = (Ok checked, w1') →
  create_writes env checked w2 = (Ok reply, w2') →
  statusCode reply = 201 →
  ∃ st1 user data st2,
    conn w1 = Up st1
    ∧ requireAuth env request = Ok user
    ∧ requireRole user ["admin"; "manager"] = Ok tt
    ∧ schema_issues env (body request) = []
    ∧ createPurchaseOrderSchema_parse env (body request) = Ok data
    ∧ (data_po_number data ∉ live_numbers st1)
    ∧ is_Some (select_supplier (data_supplier_id data) st1)
    ∧ w1' = w1
    ∧ conn w2 = Up st2
    ∧ (let newPO := new_order env user data (draws w2) in
       let items := item_rows env user newPO (S (draws w2)) (data_items data) in
       reply = send 201 (PurchaseOrderPayload newPO items)
       ∧ conn w2' = Up (with_purchase_order_items (λ l, l ++ items)
                          (insert_purchase_order newPO st2))
       ∧ po_number newPO = data_po_number data
       ∧ po_status newPO = data_status data
       ∧ po_deleted_at newPO = None).
Proof.
  intros Hreads Hwrites Hcode.
  destruct (create_reads_run env request w1)
    as [(early & Hearly & Hnot)|(st1 & user & data & Hconn & Hauth & Hrole & Hparse
                                 & Hfree & Hsupplier & Hpass)].
  { rewrite Hearly in Hreads. injection Hreads as <- <-.
    simpl in Hwrites. unfold Async.ret in Hwrites. injection Hwrites as <- <-.
    done. }
  rewrite Hpass in Hreads. injection Hreads as <- <-.
  destruct w2 as [[|st2] n2].
  { destruct (create_writes_down env _ n2 reply w2' Hwrites Hcode) as [early Hearly].
    discriminate. }
  rewrite create_writes_run in Hwrites. injection Hwrites as <- <-.
  exists st1, user, data, st2.
  split; [done|]. split; [done|]. split; [done|].
  split; [by eapply parse_no_issues|]. split; [done|].
  split; [by apply select_by_number_None|].
  split; [done|]. split; [done|]. split; [done|].
  cbn zeta. cbn [pending_creator pending_data draws]. done.
Qed.

Lemma js_or_system_truthy (userId : jsval) : truthy (js_or userId (JString "system")) = true.
Proof. unfold js_or. destruct (truthy userId) eqn:E; [exact E|reflexivity]. Qed.

(** X17. When a create request is accepted, one item row per item of
    the request is appended to [purchase_order_items], in order, each
    pointing at the new order, keeping the description, quantity, unit
    price and total price as sent, with the UUID of its own draw and the
    order's actor; the order gets the UUID of the first draw, equal
    creation and update stamps, no deletion stamp, and an actor that is
    the caller's id or [system], never a falsy value. *)
Theorem created_order_and_items {Qry} (env : Env)
  (request : FastifyRequest Qry CreateBody) (st : Store) (n : nat) (reply : Reply) :
  settled (create_purchase_order env request) {| conn := Up st; draws := n |} = Ok reply →
  statusCode reply = 201 →
  ∃ user data newPO rows st',
    requireAuth env request = Ok user
    ∧ createPurchaseOrderSchema_parse env (body request) = Ok data
    ∧ payload reply = PurchaseOrderPayload newPO rows
    ∧ conn (world_after (create_purchase_order env request)
                        {| conn := Up st; draws := n |}) = Up st'
    ∧ purchase_order_items st' = purchase_order_items st ++ rows
    ∧ suppliers st' = suppliers st ∧ users st' = users st
    ∧ length rows = length (data_items data)
    ∧ (∀ i item, data_items data !! i = Some item →
         ∃ row, rows !! i = Some row
                ∧ poi_purchase_order_id row = po_id newPO
                ∧ poi_id row = randomUUID env (S n + i)
                ∧ poi_description row = description item
                ∧ poi_quantity row = quantity item
                ∧ poi_unit_price row = unit_price item
                ∧ poi_total_price row = total_price item
                ∧ poi_created_by row = po_created_by newPO)
    ∧ po_id newPO = randomUUID env n
    ∧ po_created_by newPO = js_or (id user) (JString "system")
    ∧ po_updated_by newPO = po_created_by newPO
    ∧ po_updated_at newPO = po_created_at newPO
    ∧ po_deleted_at newPO = None
    ∧ truthy (po_created_by newPO) = true.
Proof.
  unfold settled, world_after.
  destruct (create_run env request st n)
    as [(r & -> & Hcode)|(user & data & Hauth & _ & Hparse & _ & _ & ->)]; simpl.
  - intros [= <-] Hr. done.
  - intros [= <-] _.
    exists user, data, (new_order env user data n),
      (item_rows env user (new_order env user data n) (S n) (data_items data)).
    eexists. repeat (split; [done|]).
    split; [apply length_imap|]. split.
    + intros i item Hitem. eexists. split.
      * unfold item_rows. rewrite list_lookup_imap, Hitem. reflexivity.
      * done.
    + repeat (split; [done|]). apply js_or_system_truthy.
Qed.

(** X18. After a create request is accepted, any later valid request by
    an authorized caller for the same number is answered with 400
    [Purchase order number already exists] and writes nothing. *)
Theorem create_then_same_number_conflicts {Qry} (env : Env)
  (first second : FastifyRequest Qry CreateBody) (st : Store) (n : nat)
  (reply : Reply) (user : AuthenticatedUser) :
  settled (create_purchase_order env first) {| conn := Up st; draws := n |} = Ok reply →
  statusCode reply = 201 →
  body_po_number (body second) = body_po_number (body first) →
  requireAuth env second = Ok user →
  requireRole user ["admin"; "manager"] = Ok tt →
  schema_issues env (body second) = [] →
  let w1 := world_after (create_purchase_order env first) {| conn := Up st; draws := n |} in
  create_purchase_order env second w1
  = (Ok (send 400 (ErrorPayload "Purchase order number already exists")), w1).
Proof.
  unfold settled, world_after.
  destruct (create_run env first st n)
    as [(r & -> & Hcode)|(user1 & data & _ & _ & Hparse & _ & _ & ->)]; simpl.
  - intros [= <-] Hr. done.
  - intros _ _ Hnumber Hauth Hrole Hissues.
    apply parse_ok in Hparse as (Hfirst & _ & _).
    unfold create_purchase_order.
    unfold Async.try_catch, Async.bind, Async.lift, Async.select, Async.ret.
    rewrite Hauth, Hrole. unfold createPurchaseOrderSchema_parse. rewrite Hissues.
    cbn [conn draws data_po_number]. rewrite Hnumber, Hfirst. cbn [default].
    rewrite bool_decide_eq_true_2; [reflexivity|].
    apply head_filter_is_Some. exists (new_order env user1 data n).
    split; [|done]. simpl. apply elem_of_app. right. apply list_elem_of_here.
Qed.

(** X19. After a create request is accepted, and provided the drawn
    UUID is not already the id of an order, the status lookup of the
    status handler finds the new order with the status the request named,
    or [draft] when it named none. *)
Theorem created_order_status_is_readable {Qry} (env : Env)
  (request : FastifyRequest Qry CreateBody) (st : Store) (n : nat) (reply : Reply) :
  settled (create_purchase_order env request) {| conn := Up st; draws := n |} = Ok reply →
  statusCode reply = 201 →
  (∀ po, po ∈ purchase_orders st → po_id po ≠ randomUUID env n) →
  ∃ st', conn (world_after (create_purchase_order env request)
                           {| conn := Up st; draws := n |}) = Up st'
         ∧ select_current_status (randomUUID env n) st'
           = Some (default "draft" (body_status (body request))).
Proof.
  unfold settled, world_after.
  destruct (create_run env request st n)
    as [(r & -> & Hcode)|(user & data & _ & _ & Hparse & _ & _ & ->)]; simpl.
  - intros [= <-] Hr. done.
  - intros _ _ Hfresh. eexists. split; [reflexivity|].
    apply parse_ok in Hparse as (_ & Hstatus & _).
    unfold select_current_status. simpl. rewrite filter_app.
    assert (Hold : filter (λ po, po_id po = randomUUID env n ∧ po_deleted_at po = None)
                          (purchase_orders st) = []).
    { apply elem_of_nil_inv. intros po [[Hid _] Hin]%list_elem_of_filter.
      by apply (Hfresh po). }
    rewrite Hold. simpl. rewrite filter_cons, decide_True by done. simpl.
    by rewrite Hstatus.
Qed.

(** ** Token verification route and worked cases *)

(** X21. For a request that carries an Authorization header, the handler
    of [GET /verify] answers 200 with the principal's id, email, name and
    role when [requireAuth] accepts the request, and 401 in every other
    case: with [Missing or invalid authorization header] exactly when the
    header does not start with [Bearer ], and with [Invalid token]
    otherwise. It never answers 500 and never touches the world. *)
Theorem verify_token_replies {Qry Body} (env : Env) (request : FastifyRequest Qry Body)
  (authHeader : string) (w : World) :
  headers_authorization request = Some authHeader →
  (∀ user, requireAuth env request = Ok user →
     verify_token env request w
     = (Ok {| verify_statusCode := 200;
              verify_payload :=
                VerifyValid (id user) (email user) (name user) (role user) |}, w))
  ∧ (extractUserFromRequest env request = None →
     ∃ p, verify_token env request w
          = (Ok {| verify_statusCode := 401; verify_payload := p |}, w)
          ∧ (if startsWith authHeader "Bearer "
             then p = VerifyInvalid "Invalid token"
             else p = VerifyError "Missing or invalid authorization header")).
Proof.
  intros Hheader.
  unfold verify_token, Async.try_catch, Async.bind, Async.lift, Async.ret. split.
  - intros user Hauth. rewrite Hauth.
    apply requireAuth_Ok in Hauth as (token & decoded & -> & _ & _).
    destruct (bearer_header token) as (-> & -> & _). reflexivity.
  - intros Hnone. rewrite (requireAuth_unauthenticated env request Hnone), Hheader.
    destruct (startsWith authHeader "Bearer ") eqn:Hprefix.
    + apply startsWith_split in Hprefix. rewrite Hprefix.
      destruct (bearer_header (substring authHeader (String.length "Bearer ")))
        as (-> & _ & _).
      eauto.
    + rewrite orb_true_r. eauto.
Qed.

Lemma verify_token_replies_witness :
  let w := Sample.world [] in
  verify_token Sample.env (Sample.request (Some "Bearer token-basic") "" tt tt) w
  = (Ok {| verify_statusCode := 200;
           verify_payload :=
             VerifyValid (id Sample.basic) (email Sample.basic) JUndefined
                         (role Sample.basic) |}, w)
  ∧ verify_token Sample.env (Sample.request (Some "Bearer expired") "" tt tt) w
    = (Ok {| verify_statusCode := 401;
             verify_payload := VerifyInvalid "Invalid token" |}, w)
  ∧ verify_token Sample.env (Sample.request (Some "Basic dXNlcjpwdw==") "" tt tt) w
    = (Ok {| verify_statusCode := 401;
             verify_payload := VerifyError "Missing or invalid authorization header" |},
       w).
Proof.
  intros w. split; [|split].
  - destruct (verify_token_replies Sample.env
                (Sample.request (Some "Bearer token-basic") "" tt tt)
                "Bearer token-basic" w eq_refl) as [Hvalid _].
    erewrite Hvalid; [|vm_compute; reflexivity]. reflexivity.
  - destruct (verify_token_replies Sample.env
                (Sample.request (Some "Bearer expired") "" tt tt)
                "Bearer expired" w eq_refl) as [_ Hinvalid].
    destruct Hinvalid as (p & -> & Hp); [reflexivity|]. simpl in Hp. by rewrite Hp.
  - destruct (verify_token_replies Sample.env
                (Sample.request (Some "Basic dXNlcjpwdw==") "" tt tt)
                "Basic dXNlcjpwdw==" w eq_refl) as [_ Hmissing].
    destruct Hmissing as (p & -> & Hp); [reflexivity|]. simpl in Hp. by rewrite Hp.
Defined.

Lemma token_principal_decisions_witness :
  let request := Sample.request
                   (Some ("Bearer " +:+ generateToken Plain.env Sample.manager))
                   "" tt tt in
  canCreatePurchaseOrder Plain.env Sample.manager 250000 = true
  ∧ ∃ principal,
      requireAuth Plain.env request = Ok principal
      ∧ ¬ canCreatePurchaseOrder Plain.env principal 1 = true
      ∧ canManageUsers principal = true.
Proof.
  intros request. split; [reflexivity|].
  destruct (token_principal_decisions Plain.env Sample.manager request
              plain_round_trip eq_refl)
    as (principal & Hauth & _ & Husers & _ & _ & Hcreate).
  exists principal. split; [exact Hauth|]. split.
  - intros H. apply Hcreate in H; [lia|discriminate].
  - rewrite Husers. reflexivity.
Defined.

Lemma status_update_success_sound_witness :
  let po := "66666666-6666-4666-8666-666666666666" in
  let request := Scenario.patch (Some "Bearer token-manager") po "pending" in
  let w := Sample.world [Sample.order "draft"] in
  settled (update_purchase_order_status Sample.env request) w
  = Ok (send 200 (MessagePayload "Purchase order status updated to pending"))
  ∧ ∃ user,
      requireAuth Sample.env request = Ok user
      ∧ requireRole user ["admin"; "manager"] = Ok tt
      ∧ isValidUUID po = true
      ∧ (∀ st', conn (world_after (update_purchase_order_status Sample.env request) w)
                = Up st' →
                select_current_status po st' = Some "pending").
Proof.
  intros po request w. split; [reflexivity|].
  edestruct (status_update_success_sound Sample.env request w w w
               (world_after (update_purchase_order_status Sample.env request) w))
    as (st1 & user & current & st2 & _ & Hauth & Hrole & Huuid & _ & _ & _ & Hconn
        & _ & Hstatus); [vm_compute; reflexivity..|].
  exists user. repeat (split; [done|]).
  intros st' Hafter. specialize (Hstatus st' Hafter).
  injection Hconn as <-. exact Hstatus.
Defined.

Lemma create_keeps_numbers_unique_witness :
  let first := Scenario.post (Some "Bearer token-admin")
                             (Sample.create_body "PO-2025-002" None) in
  let second := Scenario.post (Some "Bearer token-manager")
                              (Sample.create_body "PO-2025-002" (Some "pending")) in
  let w := Sample.world [Sample.order "draft"] in
  (∃ st', conn (world_after (create_purchase_order Sample.env first) w) = Up st'
          ∧ NoDup (live_numbers st'))
  ∧ (∃ reply1 reply2 st',
       settled (racing_creates Sample.env first second) w = Ok (reply1, reply2)
       ∧ statusCode reply1 = 201
       ∧ statusCode reply2 = 201
       ∧ conn (world_after (racing_creates Sample.env first second) w) = Up st'
       ∧ live_numbers st' = ["PO-2025-001"; "PO-2025-002"; "PO-2025-002"]).
Proof.
  intros first second w.
  destruct (create_keeps_numbers_unique Sample.env first second
              (Sample.store [Sample.order "draft"]) 0) as [Halone Hrace].
  split.
  - apply Halone. apply (bool_decide_unpack _). vm_compute. exact I.
  - edestruct Hrace as (reply1 & reply2 & st' & Hreplies & Hcode1 & Hcode2 & Hconn
                        & Hnumbers & _).
    1-7: vm_compute; reflexivity.
    { apply (bool_decide_unpack _). vm_compute. exact I. }
    1-2: vm_compute; eauto.
    exists reply1, reply2, st'. do 4 (split; [done|]). exact Hnumbers.
Defined.

Lemma create_success_sound_witness :
  let request := Scenario.post (Some "Bearer token-manager")
                               (Sample.create_body "PO-2025-002" (Some "pending")) in
  let w := Sample.world [Sample.order "draft"] in
  (∃ reply, settled (create_purchase_order Sample.env request) w = Ok reply
            ∧ statusCode reply = 201)
  ∧ ∃ user data,
      requireAuth Sample.env request = Ok user
      ∧ requireRole user ["admin"; "manager"] = Ok tt
      ∧ schema_issues Sample.env (body request) = []
      ∧ createPurchaseOrderSchema_parse Sample.env (body request) = Ok data
      ∧ data_po_number data ∉ live_numbers (Sample.store [Sample.order "draft"]).
Proof.
  intros request w. split; [eexists; split; reflexivity|].
  edestruct (create_success_sound Sample.env request w w w
               (world_after (create_purchase_order Sample.env request) w))
    as (st1 & user & data & st2 & Hconn & Hauth & Hrole & Hissues & Hparse & Hfree
        & _); [vm_compute; reflexivity..|].
  exists user, data. injection Hconn as <-. done.
Defined.

Lemma status_update_not_found_witness :
  update_purchase_order_status Sample.env
    (Scenario.patch (Some "Bearer token-admin") "66666666-6666-4666-8666-666666666666"
                  "pending")
    (Sample.world [Scenario.deleted_order])
  = (Ok (send 404 (ErrorPayload "Purchase order not found")),
     Sample.world [Scenario.deleted_order]).
Proof.
  eapply status_update_not_found; try (vm_compute; reflexivity).
  intros po Hpo%list_elem_of_singleton _. subst po. discriminate.
Defined.

Lemma status_update_unknown_stored_status_witness :
  update_purchase_order_status Sample.env
    (Scenario.patch (Some "Bearer token-manager") "66666666-6666-4666-8666-666666666666"
                  "approved")
    (Sample.world [Sample.order "submitted"])
  = (Ok (send 500 (ErrorPayload "Failed to update purchase order status")),
     Sample.world [Sample.order "submitted"]).
Proof.
  eapply status_update_unknown_stored_status; try (vm_compute; reflexivity).
  apply (bool_decide_unpack _). vm_compute. exact I.
Defined.

Lemma status_update_then_repeat_witness :
  let request := Scenario.patch (Some "Bearer token-manager")
                              "66666666-6666-4666-8666-666666666666" "pending" in
  ∃ w1,
    update_purchase_order_status Sample.env request (Sample.world [Sample.order "draft"])
    = (Ok (send 200 (MessagePayload "Purchase order status updated to pending")), w1)
    ∧ update_purchase_order_status Sample.env request w1
      = (Ok (send 400 (ErrorPayload "Invalid status transition from pending to pending")),
         w1).
Proof.
  intros request.
  eapply (status_update_then_repeat Sample.env request
            (Sample.store [Sample.order "draft"]) 0 _ "draft");
    try (vm_compute; reflexivity).
  apply (bool_decide_unpack _). vm_compute. exact I.
Defined.

Lemma create_requires_live_supplier_witness :
  create_purchase_order Sample.env
    (Scenario.post (Some "Bearer token-admin") Scenario.other_supplier_body) (Sample.world [])
  = (Ok (send 400 (ErrorPayload "Supplier not found")), Sample.world []).
Proof.
  eapply create_requires_live_supplier; try (vm_compute; reflexivity).
  - apply not_elem_of_nil.
  - intros s Hs%list_elem_of_singleton Hid. subst s. discriminate Hid.
Defined.

Lemma created_order_and_items_witness :
  let request := Scenario.post (Some "Bearer token-manager")
                             (Sample.create_body "PO-2025-002" None) in
  ∃ st' row,
    conn (world_after (create_purchase_order Sample.env request) (Sample.world [])) = Up st'
    ∧ purchase_order_items st' = [row]
    ∧ poi_purchase_order_id row = "aaaaaaaa-0000-4000-8000-000000000000"
    ∧ poi_id row = "aaaaaaaa-0000-4000-8000-000000000001".
Proof.
  intros request.
  destruct (create_purchase_order Sample.env request (Sample.world []))
    as [[reply|e] w'] eqn:Hrun; [|vm_compute in Hrun; discriminate Hrun].
  destruct (created_order_and_items Sample.env request (Sample.store []) 0 reply)
    as (user & data & newPO & rows & st' & _ & Hdata & _ & Hst' & Hitems & _ & _
        & Hlen & Hrows & Hid & _).
  - unfold settled. fold (Sample.world []). by rewrite Hrun.
  - vm_compute in Hrun. injection Hrun as <- _. reflexivity.
  - vm_compute in Hdata. injection Hdata as <-.
    destruct (Hrows 0%nat (parse_item Sample.item) eq_refl)
      as (row & Hrow & Hpo & Hrowid & _).
    destruct rows as [|row' [|? ?]]; try discriminate Hlen.
    injection Hrow as ->.
    exists st', row. split; [exact Hst'|]. split; [exact Hitems|].
    split; [by rewrite Hpo, Hid|exact Hrowid].
Defined.

Lemma create_then_same_number_conflicts_witness :
  let first := Scenario.post (Some "Bearer token-manager")
                           (Sample.create_body "PO-2025-002" None) in
  let second := Scenario.post (Some "Bearer token-admin")
                            (Sample.create_body "PO-2025-002" (Some "approved")) in
  let w1 := world_after (create_purchase_order Sample.env first) (Sample.world []) in
  create_purchase_order Sample.env second w1
  = (Ok (send 400 (ErrorPayload "Purchase order number already exists")), w1).
Proof.
  intros first second.
  eapply (create_then_same_number_conflicts Sample.env first second (Sample.store []) 0).
  - vm_compute. reflexivity.
  - reflexivity.
  - reflexivity.
  - vm_compute. reflexivity.
  - vm_compute. reflexivity.
  - vm_compute. reflexivity.
Defined.

Lemma created_order_status_is_readable_witness :
  let request := Scenario.post (Some "Bearer token-manager")
                             (Sample.create_body "PO-2025-002" None) in
  ∃ st',
    conn (world_after (create_purchase_order Sample.env request)
                      (Sample.world [Sample.order "ordered"])) = Up st'
    ∧ select_current_status "aaaaaaaa-0000-4000-8000-000000000000" st' = Some "draft".
Proof.
  intros request.
  eapply (created_order_status_is_readable Sample.env request
            (Sample.store [Sample.order "ordered"]) 0).
  - vm_compute. reflexivity.
  - reflexivity.
  - intros po Hpo%list_elem_of_singleton. subst po. discriminate.
Defined.
